(** * Speech-to-text backend: a model of the request handlers and adapters

    The development embeds the service in these modules:
    - [Js]: the JavaScript values the handlers compute with (parsed JSON,
      [undefined], property access, truthiness, string helpers);
    - [World]: the HTTP client, the row store client and the clock;
    - [Speech]: the upload route [POST /transcribe/web];
    - [Transcriptions]: the record route [GET /:id];
    - [RowStore]: what the store client answers to a lookup by id;
    - [SpeechToTextService]: the provider adapters and the two normalizers.

    Network, store and clock are oracles of an environment; every call is
    appended to a log, so that statements can count calls. [Observe] holds
    the notions the statements are written with, [Sample] concrete
    inputs. *)

From Stdlib Require Import ZArith NArith List String Ascii Bool Lia.
From Stdlib Require Import DecimalString.
Import ListNotations.

Set Warnings "-register-all".
Local Open Scope string_scope.
Local Open Scope Z_scope.

(* ================================================================== *)
(** ** JavaScript values                                               *)
(* ================================================================== *)

Module Js.

(** A finite double: an integer (every integer up to 2^53 in magnitude is
    a double, and beyond that those of at most 53 significant bits), or a
    non-integral number named by its shortest round-trip decimal (the
    text [String(x)] prints, which identifies the double). JSON has
    neither NaN nor infinities. *)
Inductive number :=
| NInt (z : Z)
| NFrac (shortest : string).

(** Parsed JSON, [undefined], and the inherited members of a plain object
    ([VNative]: a built-in function, which JSON never contains). *)
Inductive value :=
| VUndefined
| VNull
| VBool (b : bool)
| VNum (n : number)
| VStr (s : string)
| VArr (items : list value)
| VObj (fields : list (string * value))
| VNative (name : string).

Definition num (z : Z) : value := VNum (NInt z).

(** [!!v] *)
Definition truthy (v : value) : bool :=
  match v with
  | VUndefined | VNull => false
  | VBool b => b
  | VNum (NInt z) => negb (z =? 0)
  | VNum (NFrac _) => true
  | VStr s => negb (String.eqb s EmptyString)
  | VArr _ | VObj _ | VNative _ => true
  end.

Definition nullish (v : value) : bool :=
  match v with
  | VUndefined | VNull => true
  | _ => false
  end.

(** A parameter declared [v = d]: the default stands in for
    [undefined] only. *)
Definition default_to (v d : value) : value :=
  match v with
  | VUndefined => d
  | _ => v
  end.

(** [a || b] *)
Definition or_else (a b : value) : value := if truthy a then a else b.

(** [a && b] *)
Definition and_then (a b : value) : value := if truthy a then b else a.

Definition number_eqb (a b : number) : bool :=
  match a, b with
  | NInt x, NInt y => x =? y
  | NFrac x, NFrac y => (x =? y)%string
  | _, _ => false
  end.

(** [a === b]. Two arrays or objects are equal only when they are the same
    reference; the handlers compare against literals, so these cases are
    [false]. *)
Definition strict_eq (a b : value) : bool :=
  match a, b with
  | VUndefined, VUndefined => true
  | VNull, VNull => true
  | VBool x, VBool y => Bool.eqb x y
  | VNum x, VNum y => number_eqb x y
  | VStr x, VStr y => (x =? y)%string
  | _, _ => false
  end.

(** [xs.includes(v)] *)
Definition includes (xs : list value) (v : value) : bool :=
  existsb (strict_eq v) xs.

Fixpoint lookup (k : string) (fs : list (string * value)) : option value :=
  match fs with
  | [] => None
  | (k', v) :: rest => if (k =? k')%string then Some v else lookup k rest
  end.

Definition nat_to_string (n : nat) : string :=
  NilZero.string_of_uint (Nat.to_uint n).

Definition Z_to_string (z : Z) : string :=
  NilZero.string_of_int (Z.to_int z).

Fixpoint elem_by_key (k : string) (xs : list value) (i : nat) : value :=
  match xs with
  | [] => VUndefined
  | x :: rest => if (k =? nat_to_string i)%string then x else elem_by_key k rest (S i)
  end.

Fixpoint char_by_key (k : string) (s : string) (i : nat) : value :=
  match s with
  | EmptyString => VUndefined
  | String c rest =>
      if (k =? nat_to_string i)%string then VStr (String c EmptyString)
      else char_by_key k rest (S i)
  end.

(** What a plain object inherits from [Object.prototype]. *)
Definition inherited (k : string) : value :=
  if (k =? "constructor")%string then VNative "Object"
  else if (k =? "__proto__")%string then VObj []
  else if existsb (String.eqb k)
            ["hasOwnProperty"; "isPrototypeOf"; "propertyIsEnumerable";
             "toLocaleString"; "toString"; "valueOf";
             "__defineGetter__"; "__defineSetter__";
             "__lookupGetter__"; "__lookupSetter__"]
       then VNative k
  else VUndefined.

(** [v[k]] for a receiver that is neither [undefined] nor [null]. The
    methods of arrays, strings, numbers and booleans are left out: the
    handlers read data fields only. *)
Definition member (v : value) (k : string) : value :=
  match v with
  | VObj fs => match lookup k fs with Some x => x | None => inherited k end
  | VArr xs =>
      if (k =? "length")%string then num (Z.of_nat (List.length xs))
      else elem_by_key k xs 0
  | VStr s =>
      if (k =? "length")%string then num (Z.of_nat (String.length s))
      else char_by_key k s 0
  | _ => VUndefined
  end.

(** [v[i]] *)
Definition index (v : value) (i : nat) : value := member v (nat_to_string i).

(** [v?.k] *)
Definition opt_member (v : value) (k : string) : value :=
  if nullish v then VUndefined else member v k.

(** An [Error] object: its message and, on an HTTP error of the client
    library, the response it carries ([undefined] otherwise). *)
Record Exn := { message : value; response : value }.

(** [new Error(msg)] *)
Definition Error (msg : string) : Exn :=
  {| message := VStr msg; response := VUndefined |}.

Inductive Result (A : Type) :=
| Ok (a : A)
| Throw (e : Exn).
Arguments Ok {A} a.
Arguments Throw {A} e.

(** [v.k]: reading a property of [undefined] or [null] is a TypeError. *)
Definition get (v : value) (k : string) : Result value :=
  match v with
  | VUndefined =>
      Throw (Error ("Cannot read properties of undefined (reading '" ++ k ++ "')"))
  | VNull =>
      Throw (Error ("Cannot read properties of null (reading '" ++ k ++ "')"))
  | _ => Ok (member v k)
  end.

(** The double nearest to a natural number, ties going to the even
    significand of 53 bits; [None] beyond the largest double. *)
Definition nearest_double (c : Z) : option Z :=
  let bits := Z.log2 c + 1 in
  if bits <=? 53 then Some c
  else
    let e := bits - 53 in
    let q := Z.shiftr c e in
    let rest := c - Z.shiftl q e in
    let half := 2 ^ (e - 1) in
    let q' := if (half <? rest) || ((rest =? half) && Z.odd q) then q + 1 else q in
    let d := Z.shiftl q' e in
    if 1024 <? Z.log2 d + 1 then None else Some d.

Definition reads_as (c d : Z) : bool :=
  match nearest_double c with
  | Some d' => d' =? d
  | None => false
  end.

(** The decimal with the fewest significant digits that reads as the
    double [d] of [n] digits, the nearer one when two have as few;
    [k] counts the significant digits tried. *)
Fixpoint shortest_from (fuel : nat) (k n d : Z) : Z :=
  match fuel with
  | O => d
  | S fuel' =>
      let unit := 10 ^ (n - k) in
      let lo := (d / unit) * unit in
      let hi := lo + unit in
      let lo_ok := (0 <? lo) && reads_as lo d in
      let hi_ok := reads_as hi d in
      if lo_ok && hi_ok then
        if d - lo <? hi - d then lo
        else if hi - d <? d - lo then hi
        else if Z.even (lo / unit) then lo else hi
      else if lo_ok then lo
      else if hi_ok then hi
      else shortest_from fuel' (k + 1) n d
  end.

Fixpoint strip_zeros (reversed : string) : string :=
  match reversed with
  | String "0" rest => strip_zeros rest
  | _ => reversed
  end.

Fixpoint reverse (s : string) : string :=
  match s with
  | EmptyString => EmptyString
  | String c rest => reverse rest ++ String c EmptyString
  end.

(** [String(x)] for a natural number [x]: the digits of the shortest
    decimal that reads as the double, in full up to 21 digits and in
    exponent form beyond. *)
Definition natural_to_string (c : Z) : string :=
  match nearest_double c with
  | None => "Infinity"
  | Some d =>
      let n := Z.of_nat (String.length (Z_to_string d)) in
      let shortest := shortest_from (Z.to_nat n) 1 n d in
      let digits := Z_to_string shortest in
      let n' := Z.of_nat (String.length digits) in
      if n' <=? 21 then digits
      else
        match reverse (strip_zeros (reverse digits)) with
        | String first EmptyString =>
            String first ("e+" ++ Z_to_string (n' - 1))
        | String first more =>
            String first ("." ++ more ++ "e+" ++ Z_to_string (n' - 1))
        | EmptyString => digits
        end
  end.

(** [String(x)] for an integer [x]. *)
Definition integer_to_string (z : Z) : string :=
  if z <? 0 then "-" ++ natural_to_string (- z) else natural_to_string z.

(** [String(v)], as a template literal or a property key applies it. *)
Fixpoint to_string (v : value) : string :=
  match v with
  | VUndefined => "undefined"
  | VNull => "null"
  | VBool true => "true"
  | VBool false => "false"
  | VNum (NInt z) => integer_to_string z
  | VNum (NFrac s) => s
  | VStr s => s
  | VArr xs =>
      String.concat ","
        (map (fun x => if nullish x then EmptyString else to_string x) xs)
  | VObj _ => "[object Object]"
  | VNative name => "function " ++ name ++ "() { [native code] }"
  end.

(** What [JSON.stringify] keeps of a value: [undefined] and functions
    vanish from objects and become [null] inside arrays. *)
Fixpoint jsonify (v : value) : value :=
  match v with
  | VArr xs =>
      VArr (map (fun x => match jsonify x with VUndefined => VNull | y => y end) xs)
  | VObj fs =>
      VObj ((fix fields (l : list (string * value)) : list (string * value) :=
               match l with
               | [] => []
               | (k, x) :: rest =>
                   match jsonify x with
                   | VUndefined => fields rest
                   | y => (k, y) :: fields rest
                   end
               end) fs)
  | VNative _ => VUndefined
  | _ => v
  end.

(** [{ ...fields, [k]: v }] *)
Fixpoint assign (k : string) (v : value) (fields : list (string * value))
  : list (string * value) :=
  match fields with
  | [] => [(k, v)]
  | (k', x) :: rest =>
      if (k =? k')%string then (k', v) :: rest else (k', x) :: assign k v rest
  end.

Fixpoint indexed (xs : list value) (i : nat) : list (string * value) :=
  match xs with
  | [] => []
  | x :: rest => (nat_to_string i, x) :: indexed rest (S i)
  end.

Fixpoint chars (s : string) : list value :=
  match s with
  | EmptyString => []
  | String c rest => VStr (String c EmptyString) :: chars rest
  end.

(** The own enumerable properties a spread copies (the fields of an object
    have distinct keys). *)
Definition own_entries (v : value) : list (string * value) :=
  match v with
  | VObj fs => fs
  | VArr xs => indexed xs 0
  | VStr s => indexed (chars s) 0
  | _ => []
  end.

(** [{ ...fields, ...v }] *)
Definition spread (fields : list (string * value)) (v : value) : list (string * value) :=
  fold_left (fun acc kv => assign (fst kv) (snd kv) acc) (own_entries v) fields.

(** *** Strings *)

(** [toLowerCase] on one 8-bit code unit: A-Z and the Latin-1 capitals
    (U+00C0-U+00DE but the multiplication sign). *)
Definition lower_char (c : ascii) : ascii :=
  let n := N_of_ascii c in
  if (((65 <=? n) && (n <=? 90))
      || ((192 <=? n) && (n <=? 222) && negb (n =? 215)))%N
  then ascii_of_N (n + 32)
  else c.

Fixpoint toLowerCase (s : string) : string :=
  match s with
  | EmptyString => EmptyString
  | String c rest => String (lower_char c) (toLowerCase rest)
  end.

(** [s.split(sep)] for a one-character separator; [cur] is the piece being
    read. *)
Fixpoint split_from (sep : ascii) (cur : string) (s : string) : list string :=
  match s with
  | EmptyString => [cur]
  | String c rest =>
      if Ascii.eqb c sep then cur :: split_from sep EmptyString rest
      else split_from sep (cur ++ String c EmptyString) rest
  end.

Definition split (sep : ascii) (s : string) : list string :=
  split_from sep EmptyString s.

(** [xs.pop()] (the value only). *)
Definition pop (xs : list string) : value :=
  match rev xs with
  | [] => VUndefined
  | x :: _ => VStr x
  end.

End Js.

(* ================================================================== *)
(** ** The world outside: network, row store, clock                    *)
(* ================================================================== *)

Module World.
Import Js.

Inductive Payload :=
| NoBody
| Raw (bytes : list Byte.byte)
| Json (v : value).

(** One call of the HTTP client. *)
Record HttpRequest := {
  http_method : string;
  url : string;
  payload : Payload;
  headers : value;
  params : value
}.

(** One query of the row store client, as the handlers build it. *)
Inductive StoreQuery :=
| InsertSelectSingle (table : string) (rows : value)
| SelectEqSingle (table : string) (column : string) (key : value).

(** The store client resolves to [{ data, error }]; it reports a failure
    in [error] and does not throw. *)
Record StoreReply := { data : value; error : value }.

Inductive Event :=
| Http (r : HttpRequest)
| Store (q : StoreQuery)
| Sleep (ms : Z).

(** The clock in milliseconds and every outside call made so far. *)
Record World := { clock : Z; log : list Event }.

(** The environment variables and the behaviour of the outside world. An
    HTTP call takes some time and then yields [response.data] or rejects;
    [pause] is the time synchronous code has spent when it reads the
    clock. *)
Record Env := {
  DEEPGRAM_API_KEY : value;
  DEEPGRAM_PROJECT_ID : value;
  ASSEMBLYAI_API_KEY : value;
  http : HttpRequest -> World -> Z * Result value;
  store : StoreQuery -> World -> Z * StoreReply;
  pause : World -> Z
}.

(** [res.status(status).json(json)] *)
Record Response := { status : Z; json : value }.

Definition error_body (msg : string) : value := VObj [("error", VStr msg)].

Definition IO (A : Type) : Type := World -> Result A * World.

Definition ret {A} (a : A) : IO A := fun w => (Ok a, w).

Definition throw {A} (e : Exn) : IO A := fun w => (Throw e, w).

Definition bind {A B} (m : IO A) (k : A -> IO B) : IO B :=
  fun w =>
    match m w with
    | (Ok a, w') => k a w'
    | (Throw e, w') => (Throw e, w')
    end.

(** [try { body } catch (error) { handler }] where the handler cannot
    throw. *)
Definition try_catch {A} (body : IO A) (handler : Exn -> A) : World -> A * World :=
  fun w =>
    match body w with
    | (Ok a, w') => (a, w')
    | (Throw e, w') => (handler e, w')
    end.

Definition lift {A} (r : Result A) : IO A := fun w => (r, w).

Definition advance (w : World) (ms : Z) (e : Event) : World :=
  {| clock := clock w + ms; log := log w ++ [e] |}.

Section Effects.
Variable env : Env.

(** [await axios(...)] *)
Definition axios (r : HttpRequest) : IO value :=
  fun w => let (ms, res) := http env r w in (res, advance w ms (Http r)).

(** [await supabase.from(...)...] *)
Definition supabase (q : StoreQuery) : IO StoreReply :=
  fun w => let (ms, reply) := store env q w in (Ok reply, advance w ms (Store q)).

(** The world once the clock has been read. *)
Definition read_clock (w : World) : World :=
  {| clock := clock w + pause env w; log := log w |}.

(** [Date.now()] *)
Definition Date_now : IO Z :=
  fun w => (Ok (clock (read_clock w)), read_clock w).

(** [await new Promise((resolve) => setTimeout(resolve, ms))] *)
Definition sleep (ms : Z) : IO unit :=
  fun w => (Ok tt, advance w ms (Sleep ms)).
End Effects.

End World.

Declare Scope io_scope.
Delimit Scope io_scope with io.
Notation "x <- m ;; k" := (World.bind m (fun x => k))
  (at level 61, m at next level, right associativity) : io_scope.

(* ================================================================== *)
(** ** routes/speech: POST /transcribe/web                             *)
(* ================================================================== *)

Module Speech.
Import Js World.
Local Open Scope io_scope.

(** [req.file], as the upload middleware fills it in. *)
Record File := {
  originalname : string;
  size : Z;
  mimetype : value;
  buffer : list Byte.byte
}.

(** The upload request: the file when one came under the field [audio],
    and whatever else the client sent. *)
Record Request := {
  file : option File;
  body : value;
  query : value
}.

Definition allowedFormats : list value :=
  [VStr "wav"; VStr "mp3"; VStr "m4a"; VStr "flac"; VStr "ogg"; VStr "webm"].

(** [name.toLowerCase().split(".").pop()] *)
Definition extension (name : string) : value :=
  pop (split "." (toLowerCase name)).

Definition contentTypes : value :=
  VObj [("mp3", VStr "audio/mpeg");
        ("wav", VStr "audio/wav");
        ("m4a", VStr "audio/mp4");
        ("flac", VStr "audio/flac");
        ("ogg", VStr "audio/ogg");
        ("webm", VStr "audio/webm")].

Definition getContentType (filename : string) : value :=
  let ext := extension filename in
  or_else (member contentTypes (to_string ext)) (VStr "audio/mpeg").

Definition deepgram_url : string := "https://api.deepgram.com/v1/listen".

(** The query options of the provider call. *)
Definition deepgram_params : value :=
  VObj [("model", VStr "nova-2");
        ("language", VStr "en-US");
        ("smart_format", VBool true);
        ("punctuate", VBool true);
        ("utterances", VBool true)].

Definition deepgram_headers (apiKey projectId contentType : value) : value :=
  VObj (spread
          [("Authorization", VStr ("Token " ++ to_string apiKey));
           ("Content-Type", contentType)]
          (and_then projectId (VObj [("X-Project-Id", projectId)]))).

Definition deepgram_request (apiKey projectId : value) (f : File) : HttpRequest :=
  {| http_method := "post";
     url := deepgram_url;
     payload := Raw (buffer f);
     headers := deepgram_headers apiKey projectId (getContentType (originalname f));
     params := deepgram_params |}.

(** The row handed to the store after a transcription. *)
Definition new_row (f : File) (text contentType : value) (processingTime : Z) : value :=
  VObj [("filename", VStr (originalname f));
        ("original_text", text);
        ("file_size", num (size f));
        ("file_type", or_else (mimetype f) contentType);
        ("processing_time_ms", num processingTime)].

(** The catch block: the message by upstream status. *)
Definition errorMessage (error : Exn) : value :=
  let status := opt_member (response error) "status" in
  if strict_eq status (num 401)
  then VStr "Invalid API key. Please check your Deepgram credentials."
  else if strict_eq status (num 413)
  then VStr "Audio file too large. Please use a smaller file."
  else if strict_eq status (num 400)
  then VStr "Invalid audio format. Please use MP3, WAV, M4A, or FLAC."
  else if truthy (opt_member (opt_member (response error) "data") "error")
  then member (member (response error) "data") "error"
  else VStr "Transcription failed".

Definition on_error (error : Exn) : Response :=
  {| status := 500;
     json := VObj [("error", errorMessage error);
                   ("message", message error);
                   ("details", opt_member (response error) "data")] |}.

Section Handler.
Variable env : Env.

(** The part of the handler that follows the four checks: the provider
    call, the reading of its answer, the insert and the response. *)
Definition transcribe (f : File) (deepgramApiKey : value) : IO Response :=
  let contentType := getContentType (originalname f) in
  response_data <-
    axios env (deepgram_request deepgramApiKey (DEEPGRAM_PROJECT_ID env) f) ;;
  results <- lift (get response_data "results") ;;
  if negb (truthy results)
     || negb (truthy (member results "channels"))
     || negb (truthy (index (member results "channels") 0))
  then ret {| status := 500; json := error_body "No transcription results received" |}
  else
    let channel := index (member results "channels") 0 in
    let alternatives := member channel "alternatives" in
    if negb (truthy alternatives) || strict_eq (member alternatives "length") (num 0)
    then ret {| status := 500; json := error_body "No transcription alternatives found" |}
    else
      let bestAlternative := index alternatives 0 in
      text <- lift (get bestAlternative "transcript") ;;
      confidence <- lift (get bestAlternative "confidence") ;;
      let transcription :=
        VObj [("text", text);
              ("confidence", confidence);
              ("language", VStr "en-US");
              ("duration",
                or_else (opt_member (member results "metadata") "duration") VNull)] in
      startTime <- Date_now env ;;
      finish <- Date_now env ;;
      let processingTime := finish - startTime in
      reply <- supabase env
                 (InsertSelectSingle "transcriptions"
                    (VArr [new_row f text contentType processingTime])) ;;
      let savedTranscription := data reply in
      let saveError := error reply in
      ret {| status := 200;
             json := VObj [("success", VBool true);
                           ("transcription", transcription);
                           ("service", VStr "deepgram");
                           ("saved", VBool (negb (truthy saveError)));
                           ("transcription_id", opt_member savedTranscription "id")] |}.

(** The callback of [router.post("/transcribe/web", upload.single("audio"),
    ...)]: what runs on the request the upload middleware hands over.
    [Upload.route] puts the middleware before it. *)
Definition transcribe_web (req : Request) : World -> Response * World :=
  try_catch
    (match file req with
     | None => ret {| status := 400; json := error_body "No audio file provided" |}
     | Some f =>
         if size f >? 1024 * 1024 * 1024
         then ret {| status := 413;
                     json := error_body "File too large. Maximum size is 1GB." |}
         else
           let fileExt := extension (originalname f) in
           if negb (includes allowedFormats fileExt)
           then ret {| status := 400;
                       json := error_body
                         "Invalid audio format. Supported formats: MP3, WAV, M4A, FLAC, OGG, WEBM" |}
           else
             let deepgramApiKey := DEEPGRAM_API_KEY env in
             if negb (truthy deepgramApiKey)
             then ret {| status := 500;
                         json := error_body "Deepgram API key not configured" |}
             else transcribe f deepgramApiKey
     end)
    on_error.
End Handler.

End Speech.

(* ================================================================== *)
(** ** The upload middleware and the route                             *)
(* ================================================================== *)

Module Upload.
Import Js World Speech.

(** [limits.fileSize] *)
Definition fileSize : Z := 1024 * 1024 * 1024.

(** One file of a multipart form: the name of its field, and the file as
    the middleware hands it over when it accepts it. *)
Record FilePart := { fieldname : string; content : File }.

(** An upload as it arrives: the files of the form in their order, the
    text fields and the query. *)
Record Form := { parts : list FilePart; text_fields : value; search : value }.

(** What the middleware does with an upload: it fills in [req.file] and
    calls the handler, or it calls [next(err)] with its error code and the
    handler does not run. *)
Inductive Uploaded :=
| Delivered (req : Request)
| Refused (code : string).

(** Whether a file of [n] bytes is over the limit. Releases of the
    middleware differ on a file of exactly [fileSize] bytes; [strict] says
    that it is refused as well. *)
Definition over_limit (strict : bool) (n : Z) : bool :=
  if strict then fileSize <=? n else fileSize <? n.

(** [upload.single(name)] with the memory storage and the limit above, by
    the contract of the upload middleware, which is not part of this
    repository: a file under another field, or a second file, is an
    unexpected file; a file over the limit is refused; the first error
    ends the upload. *)
Fixpoint single_from (strict : bool) (name : string) (got : option File)
    (ps : list FilePart) : option File + string :=
  match ps with
  | [] => inl got
  | p :: rest =>
      if negb (fieldname p =? name)%string then inr "LIMIT_UNEXPECTED_FILE"
      else
        match got with
        | Some _ => inr "LIMIT_UNEXPECTED_FILE"
        | None =>
            if over_limit strict (size (content p)) then inr "LIMIT_FILE_SIZE"
            else single_from strict name (Some (content p)) rest
        end
  end.

Definition single (strict : bool) (name : string) (form : Form) : Uploaded :=
  match single_from strict name None (parts form) with
  | inl got => Delivered {| file := got; body := text_fields form; query := search form |}
  | inr code => Refused code
  end.

(** How the route ends: with the handler's response, or with an error
    passed on to the application's error handling. *)
Inductive Outcome :=
| Responded (r : Response)
| Passed (code : string).

Section Route.
Variable strict : bool.
Variable env : Env.

(** [router.post("/transcribe/web", upload.single("audio"), async (req,
    res) => ...)] *)
Definition route (form : Form) (w : World) : Outcome * World :=
  match single strict "audio" form with
  | Delivered req =>
      (Responded (fst (transcribe_web env req w)), snd (transcribe_web env req w))
  | Refused code => (Passed code, w)
  end.
End Route.

End Upload.

(* ================================================================== *)
(** ** routes/transcriptions.js: GET /:id                              *)
(* ================================================================== *)

Module Transcriptions.
Import Js World.
Local Open Scope io_scope.

(** [throw error] of a store error object, seen through the two properties
    a catch block reads. *)
Definition thrown (error : value) : Exn :=
  {| message := member error "message"; response := member error "response" |}.

Section Handler.
Variable env : Env.

(** [router.get("/:id", ...)] *)
Definition get_by_id (id : string) : World -> Response * World :=
  try_catch
    (reply <- supabase env (SelectEqSingle "transcriptions" "id" (VStr id)) ;;
     if truthy (error reply) then throw (thrown (error reply))
     else if negb (truthy (data reply))
     then ret {| status := 404; json := error_body "Transcription not found" |}
     else ret {| status := 200; json := data reply |})
    (fun _ => {| status := 500; json := error_body "Failed to fetch transcription" |}).
End Handler.

End Transcriptions.

(* ================================================================== *)
(** ** The row store client, as far as [GET /:id] depends on it        *)
(* ================================================================== *)

Module RowStore.
Import Js World.

(** The rows of a table the filter [.eq(column, key)] keeps. *)
Definition select_eq (column : string) (key : value) (rows : list value) : list value :=
  filter (fun row => strict_eq (member row column) key) rows.

(** The error the client reports when [single()] does not get exactly one
    row. *)
Definition not_a_single_row (n : nat) : value :=
  VObj [("code", VStr "PGRST116");
        ("details", VStr ("The result contains " ++ nat_to_string n ++ " rows"));
        ("hint", VNull);
        ("message", VStr "JSON object requested, multiple (or no) rows returned")].

(** [.single()], by the contract of the client library, which is not part
    of this repository: the result must be one row, otherwise the reply
    carries an error and no data. *)
Definition single (rows : list value) : StoreReply :=
  match rows with
  | [row] => {| data := row; error := VNull |}
  | _ => {| data := VNull; error := not_a_single_row (List.length rows) |}
  end.

(** What a store holding [rows] answers to
    [select("*").eq(column, key).single()]. *)
Definition select_single (rows : list value) (column : string) (key : value) : StoreReply :=
  single (select_eq column key rows).

End RowStore.

(* ================================================================== *)
(** ** The provider adapters and the normalizers                       *)
(* ================================================================== *)

Module SpeechToTextService.
Import Js World.
Local Open Scope io_scope.

Definition rbind {A B} (r : Result A) (k : A -> Result B) : Result B :=
  match r with
  | Ok a => k a
  | Throw e => Throw e
  end.

Notation "x <~ r ;; k" := (rbind r (fun x => k))
  (at level 61, r at next level, right associativity).

(** [formatDeepgramResponse(data)] *)
Definition formatDeepgramResponse (data : value) : Result value :=
  results <~ get data "results" ;;
  if negb (truthy results)
     || negb (truthy (member results "channels"))
     || negb (truthy (index (member results "channels") 0))
  then Throw (Error "Invalid Deepgram response format")
  else
    let channel := index (member results "channels") 0 in
    let alternatives := member channel "alternatives" in
    if negb (truthy alternatives) || strict_eq (member alternatives "length") (num 0)
    then Throw (Error "No transcription alternatives found")
    else
      let bestAlternative := index alternatives 0 in
      text <~ get bestAlternative "transcript" ;;
      Ok (VObj
            [("text", text);
             ("confidence", member bestAlternative "confidence");
             ("words", or_else (member bestAlternative "words") (VArr []));
             ("language",
               or_else (opt_member (member data "metadata") "language") (VStr "en-US"));
             ("duration",
               or_else (opt_member (member data "metadata") "duration") VNull);
             ("utterances",
               or_else (opt_member (member bestAlternative "paragraphs") "paragraphs")
                       (VArr []));
             ("speaker_labels", or_else (member bestAlternative "speakers") VNull)]).

(** [formatAssemblyAIResponse(data)] *)
Definition formatAssemblyAIResponse (data : value) : Result value :=
  text <~ get data "text" ;;
  Ok (VObj
        [("text", text);
         ("confidence", member data "confidence");
         ("words", or_else (member data "words") (VArr []));
         ("language", or_else (member data "language_code") (VStr "en"));
         ("duration", or_else (member data "audio_duration") VNull);
         ("utterances", or_else (member data "utterances") (VArr []));
         ("speaker_labels", or_else (member data "speaker_labels") VNull);
         ("chapters", or_else (member data "chapters") (VArr []));
         ("entities", or_else (member data "entities") (VArr []))]).

Definition deepgram_config (apiKey : value) (audioBuffer : list Byte.byte)
    (options : value) : Result HttpRequest :=
  model <~ get options "model" ;;
  Ok {| http_method := "post";
        url := "https://api.deepgram.com/v1/listen";
        payload := Raw audioBuffer;
        headers := VObj [("Authorization", VStr ("Token " ++ to_string apiKey));
                         ("Content-Type", VStr "audio/wav")];
        params := VObj (spread
                    [("model", or_else model (VStr "nova-2"));
                     ("language", or_else (member options "language") (VStr "en-US"));
                     ("smart_format", VBool true);
                     ("punctuate", VBool true);
                     ("diarize", or_else (member options "diarize") (VBool false));
                     ("utterances", VBool true)]
                    options) |}.

Definition assemblyai_upload (apiKey : value) (audioBuffer : list Byte.byte) : HttpRequest :=
  {| http_method := "post";
     url := "https://api.assemblyai.com/v2/upload";
     payload := Raw audioBuffer;
     headers := VObj [("Authorization", apiKey);
                      ("Content-Type", VStr "application/octet-stream")];
     params := VUndefined |}.

Definition assemblyai_submit (apiKey audioUrl options : value) : Result HttpRequest :=
  language <~ get options "language" ;;
  Ok {| http_method := "post";
        url := "https://api.assemblyai.com/v2/transcript";
        payload := Json (VObj (spread
                     [("audio_url", audioUrl);
                      ("language_code", or_else language (VStr "en"));
                      ("punctuate", VBool true);
                      ("format_text", VBool true);
                      ("speaker_labels",
                        or_else (member options "speakerLabels") (VBool false))]
                     options));
        headers := VObj [("Authorization", apiKey);
                         ("Content-Type", VStr "application/json")];
        params := VUndefined |}.

(** The status check of one poll. *)
Definition assemblyai_status (apiKey transcriptId : value) : HttpRequest :=
  {| http_method := "get";
     url := "https://api.assemblyai.com/v2/transcript/" ++ to_string transcriptId;
     payload := NoBody;
     headers := VObj [("Authorization", apiKey)];
     params := VUndefined |}.

Section Service.
Variable env : Env.

(** [transcribeWithDeepgram(audioBuffer, options = {})] *)
Definition transcribeWithDeepgram (audioBuffer : list Byte.byte) (options : value)
  : IO value :=
  fun w =>
    let options := default_to options (VObj []) in
    if negb (truthy (DEEPGRAM_API_KEY env))
    then (Throw (Error "Deepgram API key not configured"), w)
    else
      match (config <- lift (deepgram_config (DEEPGRAM_API_KEY env) audioBuffer options) ;;
             response_data <- axios env config ;;
             lift (formatDeepgramResponse response_data)) w with
      | (Ok result, w') => (Ok result, w')
      | (Throw error, w') =>
          (Throw (Error ("Deepgram transcription failed: " ++ to_string (message error))),
           w')
      end.

(** The polling loop of [transcribeWithAssemblyAI]: [None] when [fuel]
    polls have not reached a terminal status. *)
Fixpoint poll (fuel : nat) (transcriptId : value) (w : World)
  : option (Result value * World) :=
  match fuel with
  | O => None
  | S fuel' =>
      match axios env (assemblyai_status (ASSEMBLYAI_API_KEY env) transcriptId) w with
      | (Throw e, w1) => Some (Throw e, w1)
      | (Ok status_data, w1) =>
          match get status_data "status" with
          | Throw e => Some (Throw e, w1)
          | Ok status =>
              if strict_eq status (VStr "completed")
              then Some (Ok status_data, w1)
              else if strict_eq status (VStr "error")
              then Some (Throw (Error ("AssemblyAI transcription failed: "
                                       ++ to_string (member status_data "error"))),
                         w1)
              else poll fuel' transcriptId (snd (sleep 1000 w1))
          end
      end
  end.

(** The body of the [try] block: upload, submit, poll, normalize. *)
Definition upload_submit_poll (fuel : nat) (audioBuffer : list Byte.byte)
    (options : value) (w : World) : option (Result value * World) :=
  let apiKey := ASSEMBLYAI_API_KEY env in
  match (upload_data <- axios env (assemblyai_upload apiKey audioBuffer) ;;
         audioUrl <- lift (get upload_data "upload_url") ;;
         submit <- lift (assemblyai_submit apiKey audioUrl options) ;;
         transcript_data <- axios env submit ;;
         lift (get transcript_data "id")) w with
  | (Throw e, w1) => Some (Throw e, w1)
  | (Ok transcriptId, w1) =>
      match poll fuel transcriptId w1 with
      | None => None
      | Some (Throw e, w2) => Some (Throw e, w2)
      | Some (Ok transcript, w2) => Some (formatAssemblyAIResponse transcript, w2)
      end
  end.

(** [transcribeWithAssemblyAI(audioBuffer, options = {})] *)
Definition transcribeWithAssemblyAI (fuel : nat) (audioBuffer : list Byte.byte)
    (options : value) (w : World) : option (Result value * World) :=
  let options := default_to options (VObj []) in
  if negb (truthy (ASSEMBLYAI_API_KEY env))
  then Some (Throw (Error "AssemblyAI API key not configured"), w)
  else
    match upload_submit_poll fuel audioBuffer options w with
    | None => None
    | Some (Ok result, w') => Some (Ok result, w')
    | Some (Throw error, w') =>
        Some (Throw (Error ("AssemblyAI transcription failed: "
                            ++ to_string (message error))),
              w')
    end.
End Service.

End SpeechToTextService.

(* ================================================================== *)
(** ** What the statements observe                                     *)
(* ================================================================== *)

Module Observe.
Import Js World Speech SpeechToTextService.

(** The four checks of the upload handler, in the order of the
    specification. *)
Inductive Check :=
| FilePresent
| SizeWithinLimit
| ExtensionAllowed
| CredentialsConfigured.

Definition checks_in_order : list Check :=
  [FilePresent; SizeWithinLimit; ExtensionAllowed; CredentialsConfigured].

Definition one_GiB : Z := 2 ^ 30.

Definition allowed_extensions : list string :=
  ["wav"; "mp3"; "m4a"; "flac"; "ogg"; "webm"].

(** Whether a request passes one check, taken alone (a check on the file
    holds when there is no file to look at). *)
Definition passes (env : Env) (req : Request) (c : Check) : bool :=
  match c with
  | FilePresent => match file req with Some _ => true | None => false end
  | SizeWithinLimit =>
      match file req with Some f => size f <=? one_GiB | None => true end
  | ExtensionAllowed =>
      match file req with
      | Some f =>
          existsb (fun e => strict_eq (extension (originalname f)) (VStr e))
                  allowed_extensions
      | None => true
      end
  | CredentialsConfigured => truthy (DEEPGRAM_API_KEY env)
  end.

(** The error each check stands for. *)
Definition rejection (c : Check) : Response :=
  match c with
  | FilePresent =>
      {| status := 400; json := error_body "No audio file provided" |}
  | SizeWithinLimit =>
      {| status := 413; json := error_body "File too large. Maximum size is 1GB." |}
  | ExtensionAllowed =>
      {| status := 400;
         json := error_body
           "Invalid audio format. Supported formats: MP3, WAV, M4A, FLAC, OGG, WEBM" |}
  | CredentialsConfigured =>
      {| status := 500; json := error_body "Deepgram API key not configured" |}
  end.

Definition first_failing (env : Env) (req : Request) : option Check :=
  find (fun c => negb (passes env req c)) checks_in_order.

(** The alternative the handler takes the transcript from, when the answer
    of the provider has one: the first alternative of the first channel. *)
Definition best_alternative (data : value) : option value :=
  if nullish data then None
  else
    let results := member data "results" in
    let channels := member results "channels" in
    let alternatives := member (index channels 0) "alternatives" in
    if truthy results && truthy channels && truthy (index channels 0)
       && truthy alternatives
       && negb (strict_eq (member alternatives "length") (num 0))
       && negb (nullish (index alternatives 0))
    then Some (index alternatives 0)
    else None.

(** An answer of the provider with a first channel whose list of
    alternatives is missing or empty. *)
Definition lacks_alternatives (data : value) : bool :=
  let results := member data "results" in
  let channels := member results "channels" in
  negb (nullish data)
  && truthy results && truthy channels && truthy (index channels 0)
  && match member (index channels 0) "alternatives" with
     | VUndefined | VNull | VArr [] => true
     | _ => false
     end.

(** The HTTP status of the upstream answer an error carries, and the error
    message that answer supplies. *)
Definition upstream_status (error : Exn) : value :=
  opt_member (response error) "status".

Definition upstream_message (error : Exn) : value :=
  opt_member (opt_member (response error) "data") "error".

(** What the job normalizer puts in a field of its result when the field
    it reads is absent from the answer: source field, result field,
    value. *)
Definition assemblyai_defaults : list (string * string * value) :=
  [("text", "text", VUndefined);
   ("confidence", "confidence", VUndefined);
   ("words", "words", VArr []);
   ("language_code", "language", VStr "en");
   ("audio_duration", "duration", VNull);
   ("utterances", "utterances", VArr []);
   ("speaker_labels", "speaker_labels", VNull);
   ("chapters", "chapters", VArr []);
   ("entities", "entities", VArr [])].

(** The same for the fields the other normalizer reads from the best
    alternative. *)
Definition deepgram_defaults : list (string * string * value) :=
  [("transcript", "text", VUndefined);
   ("confidence", "confidence", VUndefined);
   ("words", "words", VArr []);
   ("paragraphs", "utterances", VArr []);
   ("speakers", "speaker_labels", VNull)].

Definition defaults_to (source result : value) (d : string * string * value) : Prop :=
  member source (fst (fst d)) = VUndefined -> member result (snd (fst d)) = snd d.

(** The canonical result the handler builds from the provider's answer. *)
Definition canonical (data best : value) : value :=
  VObj [("text", member best "transcript");
        ("confidence", member best "confidence");
        ("language", VStr "en-US");
        ("duration",
          or_else (opt_member (member (member data "results") "metadata") "duration")
                  VNull)].

Section SuccessfulRun.
Variables (env : Env) (f : File) (w : World).
(** The provider took [ms] milliseconds and its first alternative is
    [best]. *)
Variables (ms : Z) (best : value).

Definition provider_call : HttpRequest :=
  deepgram_request (DEEPGRAM_API_KEY env) (DEEPGRAM_PROJECT_ID env) f.

(** The world when the provider has answered. *)
Definition answered : World := advance w ms (Http provider_call).

(** The time between the two readings of the clock that follow. *)
Definition gap_between_reads : Z := pause env (read_clock env answered).

Definition the_insert : StoreQuery :=
  InsertSelectSingle "transcriptions"
    (VArr [new_row f (member best "transcript")
             (getContentType (originalname f)) gap_between_reads]).

(** The world when the store is asked, and what it answers. *)
Definition asked : World := read_clock env (read_clock env answered).

Definition the_reply : StoreReply := snd (store env the_insert asked).
End SuccessfulRun.

(** The replies of a store client that keeps its contract: the row was
    saved and comes back with its id, or an error is reported and there is
    no data. *)
Definition saved_reply (r : StoreReply) : Prop :=
  error r = VNull
  /\ nullish (data r) = false
  /\ exists id, member (data r) "id" = VStr id.

Definition failed_reply (r : StoreReply) : Prop :=
  truthy (error r) = true /\ data r = VNull.

(** Whether the body the client receives has a non-null field [k]. *)
Definition present (body : value) (k : string) : bool :=
  match jsonify body with
  | VObj fields =>
      match lookup k fields with
      | Some v => negb (nullish v)
      | None => false
      end
  | _ => false
  end.

Fixpoint has_char (c : ascii) (s : string) : bool :=
  match s with
  | EmptyString => false
  | String c' rest => Ascii.eqb c' c || has_char c rest
  end.

(** The part of a file name after its last dot, the whole name when it
    has none. *)
Fixpoint after_last_dot (s : string) : string :=
  match s with
  | EmptyString => EmptyString
  | String c rest => if has_char "." s then after_last_dot rest else s
  end.

(** The four checks as the specification words them; the third compares
    the suffix of the name with the allowed extensions without regard to
    case. *)
Definition holds (env : Env) (req : Request) (c : Check) : bool :=
  match c with
  | FilePresent => match file req with Some _ => true | None => false end
  | SizeWithinLimit =>
      match file req with Some f => size f <=? one_GiB | None => true end
  | ExtensionAllowed =>
      match file req with
      | Some f =>
          existsb (String.eqb (toLowerCase (after_last_dot (originalname f))))
                  allowed_extensions
      | None => true
      end
  | CredentialsConfigured => truthy (DEEPGRAM_API_KEY env)
  end.

Definition first_to_fail (env : Env) (req : Request) : option Check :=
  find (fun c => negb (holds env req c)) checks_in_order.


Definition is_http (e : Event) : bool :=
  match e with Http _ => true | _ => false end.

(** The status checks of the polling adapter among the logged events. *)
Definition is_status_check (e : Event) : bool :=
  match e with
  | Http r => (http_method r =? "get")%string
  | _ => false
  end.

Definition status_checks (l : list Event) : nat :=
  List.length (filter is_status_check l).






Section Job.
Variables (env : Env) (audioBuffer : list Byte.byte) (options : value).
Variable w : World.
(** The upload took [ms1] and answered [up]; the submission took [ms2]
    and answered [job]. *)
Variables (ms1 ms2 : Z) (up job : value) (submit : HttpRequest).

Definition upload_call : HttpRequest :=
  assemblyai_upload (ASSEMBLYAI_API_KEY env) audioBuffer.





End Job.

(** The rows handed to the store by the logged inserts. *)
Fixpoint inserted_rows (l : list Event) : list value :=
  match l with
  | [] => []
  | Store (InsertSelectSingle _ (VArr rows)) :: rest => rows ++ inserted_rows rest
  | _ :: rest => inserted_rows rest
  end.

End Observe.

(* ================================================================== *)
(** ** Sample inputs                                                   *)
(* ================================================================== *)

Module Sample.
Import Js World Speech.

(** A provider answer with one channel and one alternative. *)
Definition hello_world : value :=
  VObj [("metadata", VObj [("duration", VNum (NFrac "1.5"))]);
        ("results",
          VObj [("channels",
                  VArr [VObj [("alternatives",
                                VArr [VObj [("transcript", VStr "hello world");
                                            ("confidence", VNum (NFrac "0.95"))]])]])])].

Definition hello_alternative : value :=
  VObj [("transcript", VStr "hello world"); ("confidence", VNum (NFrac "0.95"))].

(** A provider answer whose channel has an empty list of alternatives. *)
Definition no_alternatives : value :=
  VObj [("results", VObj [("channels", VArr [VObj [("alternatives", VArr [])]])])].

Definition new_id : value := VStr "7c9e6679-7425-40de-944b-e07fc1f90ae7".

(** A store that accepts every insert and returns the row with its id. *)
Definition store_ok (q : StoreQuery) (_ : World) : Z * StoreReply :=
  match q with
  | InsertSelectSingle _ (VArr [VObj fields]) =>
      (40, {| data := VObj (("id", new_id) :: fields); error := VNull |})
  | _ => (40, {| data := VNull; error := VNull |})
  end.

(** A store that refuses every query. *)
Definition store_down (_ : StoreQuery) (_ : World) : Z * StoreReply :=
  (40, {| data := VNull;
          error := VObj [("message", VStr "permission denied for table transcriptions")] |}).

(** The provider answers after 2.5 seconds; reading the clock twice in a
    row gives the same millisecond. *)
Definition env_ok : Env :=
  {| DEEPGRAM_API_KEY := VStr "dg-key";
     DEEPGRAM_PROJECT_ID := VUndefined;
     ASSEMBLYAI_API_KEY := VStr "aai-key";
     http := fun _ _ => (2500, Ok hello_world);
     store := store_ok;
     pause := fun _ => 0 |}.

Definition env_store_down : Env :=
  {| DEEPGRAM_API_KEY := VStr "dg-key";
     DEEPGRAM_PROJECT_ID := VUndefined;
     ASSEMBLYAI_API_KEY := VStr "aai-key";
     http := fun _ _ => (2500, Ok hello_world);
     store := store_down;
     pause := fun _ => 0 |}.

Definition env_no_alternatives : Env :=
  {| DEEPGRAM_API_KEY := VStr "dg-key";
     DEEPGRAM_PROJECT_ID := VUndefined;
     ASSEMBLYAI_API_KEY := VStr "aai-key";
     http := fun _ _ => (900, Ok no_alternatives);
     store := store_ok;
     pause := fun _ => 0 |}.

Definition audio (name : string) : File :=
  {| originalname := name; size := 10240; mimetype := VStr "audio/wav"; buffer := [] |}.

(** The rejection of the HTTP client on an upstream answer with the given
    status and body. *)
Definition http_error (code : Z) (answer : value) : Exn :=
  {| message := VStr ("Request failed with status code " ++ Z_to_string code);
     response := VObj [("status", num code); ("data", answer)] |}.

Definition unauthorized : Exn :=
  http_error 401 (VObj [("err_code", VStr "INVALID_AUTH");
                        ("err_msg", VStr "Invalid credentials.")]).

Definition env_unauthorized : Env :=
  {| DEEPGRAM_API_KEY := VStr "dg-key";
     DEEPGRAM_PROJECT_ID := VUndefined;
     ASSEMBLYAI_API_KEY := VStr "aai-key";
     http := fun _ _ => (120, Throw unauthorized);
     store := store_ok;
     pause := fun _ => 0 |}.

(** A store that holds the given rows and answers a lookup by the
    contract of [single()]. *)
Definition store_holding (rows : list value) (q : StoreQuery) (_ : World)
  : Z * StoreReply :=
  match q with
  | SelectEqSingle _ column key => (25, RowStore.select_single rows column key)
  | InsertSelectSingle _ _ => (25, {| data := VNull; error := VNull |})
  end.

Definition one_row : value :=
  VObj [("id", new_id); ("filename", VStr "sample.wav");
        ("original_text", VStr "hello world")].

Definition env_holding (rows : list value) : Env :=
  {| DEEPGRAM_API_KEY := VStr "dg-key";
     DEEPGRAM_PROJECT_ID := VUndefined;
     ASSEMBLYAI_API_KEY := VStr "aai-key";
     http := fun _ _ => (2500, Ok hello_world);
     store := store_holding rows;
     pause := fun _ => 0 |}.

(** A completed job whose answer carries no [text], and a provider answer
    whose first alternative carries no [transcript]. *)
Definition job_without_text : value :=
  VObj [("id", VStr "job-1"); ("status", VStr "completed")].

Definition answer_without_transcript : value :=
  VObj [("results",
          VObj [("channels",
                  VArr [VObj [("alternatives", VArr [VObj [("words", VArr [])]])]])])].

(** A job that is still processing at the first status check and
    completed at the second. *)
Definition upload_answer : value :=
  VObj [("upload_url", VStr "https://cdn.assemblyai.com/upload/abc")].

Definition job_queued : value :=
  VObj [("id", VStr "job-1"); ("status", VStr "queued")].

Definition job_processing : value :=
  VObj [("id", VStr "job-1"); ("status", VStr "processing")].

Definition job_completed : value :=
  VObj [("id", VStr "job-1"); ("status", VStr "completed");
        ("text", VStr "hello world"); ("confidence", VNum (NFrac "0.95"))].

Definition job_http (r : HttpRequest) (w : World) : Z * Result value :=
  if (http_method r =? "get")%string then
    match Observe.status_checks (log w) with
    | O => (80, Ok job_processing)
    | _ => (90, Ok job_completed)
    end
  else if (url r =? "https://api.assemblyai.com/v2/upload")%string
  then (300, Ok upload_answer)
  else (150, Ok job_queued).

Definition env_job : Env :=
  {| DEEPGRAM_API_KEY := VStr "dg-key";
     DEEPGRAM_PROJECT_ID := VUndefined;
     ASSEMBLYAI_API_KEY := VStr "aai-key";
     http := job_http;
     store := store_ok;
     pause := fun _ => 0 |}.


Definition upload (name : string) : Request :=
  {| file := Some (audio name);
     body := VObj [("model", VStr "base"); ("language", VStr "fr-FR")];
     query := VObj [("language", VStr "de-DE")] |}.

Definition sample_wav : Request := upload "sample.wav".

Definition start : World := {| clock := 1000; log := [] |}.

End Sample.

(* ================================================================== *)
(** ** routes/speech: GET /test                                        *)
(* ================================================================== *)

Module SpeechTest.
Import Js World.
Local Open Scope io_scope.

Definition projects_request (apiKey : value) : HttpRequest :=
  {| http_method := "get";
     url := "https://api.deepgram.com/v1/projects";
     payload := NoBody;
     headers := VObj [("Authorization", VStr ("Token " ++ to_string apiKey))];
     params := VUndefined |}.

(** The catch block of the route. *)
Definition on_error (error : Exn) : Response :=
  {| status := 500;
     json := VObj [("error", VStr "Deepgram API key test failed");
                   ("message",
                     or_else (opt_member (opt_member (response error) "data") "error")
                             (message error))] |}.

Section Handler.
Variable env : Env.

(** [router.get("/test", ...)] *)
Definition test : World -> Response * World :=
  try_catch
    (let deepgramApiKey := DEEPGRAM_API_KEY env in
     if negb (truthy deepgramApiKey)
     then ret {| status := 500; json := error_body "Deepgram API key not configured" |}
     else
       response_data <- axios env (projects_request deepgramApiKey) ;;
       projects <- lift (get response_data "projects") ;;
       ret {| status := 200;
              json := VObj [("success", VBool true);
                            ("message", VStr "Deepgram API key is valid");
                            ("projects", projects)] |})
    on_error.
End Handler.

End SpeechTest.

(* ================================================================== *)
(** ** routes/transcriptions.js: list, create, update, delete          *)
(* ================================================================== *)

Module Records.
Import Js World.

(** The queries these routes build. *)
Inductive Query :=
| SelectAllOrdered (table column : string) (ascending : bool)
| InsertReturning (table : string) (rows : value)
| UpdateReturning (table : string) (patch : value) (column : string) (key : value)
| DeleteWhere (table column : string) (key : value).

(** The five fields the routes take from [req.body]. *)
Definition fields_of (body : value) : value :=
  VObj [("filename", member body "filename");
        ("original_text", member body "original_text");
        ("file_size", member body "file_size");
        ("file_type", member body "file_type");
        ("processing_time_ms", member body "processing_time_ms")].

Definition failed (msg : string) : Response :=
  {| status := 500; json := error_body msg |}.

Section Handlers.
(** What the store client answers to a query. Each route sends at most
    one; the routes return their response and the queries sent. *)
Variable db : Query -> StoreReply.

(** [router.get("/", ...)] *)
Definition list_all : Response * list Query :=
  let q := SelectAllOrdered "transcriptions" "created_at" false in
  (if truthy (error (db q)) then failed "Failed to fetch transcriptions"
   else {| status := 200; json := data (db q) |},
   [q]).

(** [router.post("/", ...)]; destructuring a missing [req.body] throws
    into the catch block. *)
Definition create (body : value) : Response * list Query :=
  if nullish body then (failed "Failed to create transcription", [])
  else if negb (truthy (member body "filename"))
          || negb (truthy (member body "original_text"))
  then ({| status := 400;
           json := error_body "Filename and original_text are required" |}, [])
  else
    let q := InsertReturning "transcriptions" (VArr [fields_of body]) in
    (if truthy (error (db q)) then failed "Failed to create transcription"
     else {| status := 201; json := data (db q) |},
     [q]).

(** [router.put("/:id", ...)] *)
Definition update (id : string) (body : value) : Response * list Query :=
  if nullish body then (failed "Failed to update transcription", [])
  else
    let q := UpdateReturning "transcriptions" (fields_of body) "id" (VStr id) in
    (if truthy (error (db q)) then failed "Failed to update transcription"
     else if negb (truthy (data (db q)))
     then {| status := 404; json := error_body "Transcription not found" |}
     else {| status := 200; json := data (db q) |},
     [q]).

(** [router.delete("/:id", ...)] *)
Definition delete (id : string) : Response * list Query :=
  let q := DeleteWhere "transcriptions" "id" (VStr id) in
  (if truthy (error (db q)) then failed "Failed to delete transcription"
   else {| status := 200;
           json := VObj [("message", VStr "Transcription deleted successfully")] |},
   [q]).
End Handlers.

End Records.

(* ================================================================== *)
(** ** The service's tables of models and languages                    *)
(* ================================================================== *)

Module Catalogue.
Import Js.

Definition language (code name : string) : value :=
  VObj [("code", VStr code); ("name", VStr name)].

(** [getWebSpeechConfig()] *)
Definition getWebSpeechConfig : value :=
  VObj [("languages",
          VArr [language "en-US" "English (US)";
                language "en-GB" "English (UK)";
                language "es-ES" "Spanish";
                language "fr-FR" "French";
                language "de-DE" "German";
                language "it-IT" "Italian";
                language "pt-BR" "Portuguese (Brazil)";
                language "ja-JP" "Japanese";
                language "ko-KR" "Korean";
                language "zh-CN" "Chinese (Simplified)";
                language "hi-IN" "Hindi";
                language "ar-SA" "Arabic";
                language "ru-RU" "Russian";
                language "nl-NL" "Dutch";
                language "sv-SE" "Swedish"]);
        ("features",
          VObj [("continuous", VBool true);
                ("interimResults", VBool true);
                ("maxAlternatives", num 1)])].

Definition model (id name description : string) : value :=
  VObj [("id", VStr id); ("name", VStr name); ("description", VStr description)].

(** [getAvailableModels()] *)
Definition getAvailableModels : value :=
  VObj [("deepgram",
          VArr [model "nova-2" "Nova 2 (Latest)" "Most accurate model";
                model "nova" "Nova" "High accuracy model";
                model "enhanced" "Enhanced" "Enhanced accuracy model";
                model "base" "Base" "Standard accuracy model"]);
        ("assemblyai",
          VArr [model "default" "Default" "Standard accuracy model";
                model "enhanced" "Enhanced" "Enhanced accuracy model"]);
        ("webSpeech",
          VArr [model "default" "Web Speech API" "Browser-based recognition"])].

(** [getSupportedLanguages()] *)
Definition getSupportedLanguages : value :=
  VObj [("deepgram",
          VArr (map VStr
                  ["en-US"; "en-GB"; "en-AU"; "en-NZ"; "en-IN"; "es-ES"; "es-419";
                   "fr-FR"; "de-DE"; "it-IT"; "pt-BR"; "pt-PT"; "ja-JP"; "ko-KR";
                   "zh-CN"; "hi-IN"; "ar-SA"; "ru-RU"; "nl-NL"; "sv-SE"]));
        ("assemblyai",
          VArr (map VStr
                  ["en"; "es"; "fr"; "de"; "it"; "pt"; "ja"; "ko"; "zh"; "hi"; "ar";
                   "ru"; "nl"; "sv"]));
        ("webSpeech",
          VArr (map VStr
                  ["en-US"; "en-GB"; "es-ES"; "fr-FR"; "de-DE"; "it-IT"; "pt-BR";
                   "ja-JP"; "ko-KR"; "zh-CN"]))].

End Catalogue.

(* ================================================================== *)
(** ** Further notions for the statements                              *)
(* ================================================================== *)

Module Notions.
Import Js World Speech SpeechToTextService Observe.

(** The content types of the lookup table. *)
Definition audio_types : list value :=
  [VStr "audio/mpeg"; VStr "audio/wav"; VStr "audio/mp4";
   VStr "audio/flac"; VStr "audio/ogg"; VStr "audio/webm"].

(** An answer of the provider without results, channels or first
    channel. *)
Definition lacks_results (data : value) : bool :=
  let results := member data "results" in
  let channels := member results "channels" in
  negb (nullish data)
  && negb (truthy results && truthy channels && truthy (index channels 0)).

(** An answer whose list of alternatives starts with [null] or
    [undefined]. *)
Definition null_first_alternative (data : value) : bool :=
  let results := member data "results" in
  let channels := member results "channels" in
  negb (nullish data)
  && truthy results && truthy channels && truthy (index channels 0)
  && match member (index channels 0) "alternatives" with
     | VArr (a :: _) => nullish a
     | _ => false
     end.

(** The fields of an object value. *)
Definition fields (v : value) : list (string * value) :=
  match v with
  | VObj fs => fs
  | _ => []
  end.

(** A field that is never falsy but by being [null]. *)
Definition null_or_truthy (v : value) : Prop := v = VNull \/ truthy v = true.

(** The options of [transcribeWithDeepgram] and their defaults, the three
    that the adapter computes from the options being given as they come
    out when the options do not name them. *)
Definition deepgram_default_params : list (string * value) :=
  [("model", VStr "nova-2");
   ("language", VStr "en-US");
   ("smart_format", VBool true);
   ("punctuate", VBool true);
   ("diarize", VBool false);
   ("utterances", VBool true)].

(** The fields of an object literal: no key twice. *)
Definition distinct_keys (fs : list (string * value)) : Prop :=
  NoDup (map fst fs).

(** The items of an array value. *)
Definition items (v : value) : list value :=
  match v with
  | VArr xs => xs
  | _ => []
  end.

(** The fields of a record a client may set. *)
Definition record_fields : list string :=
  ["filename"; "original_text"; "file_size"; "file_type"; "processing_time_ms"].

(** What reaches the store of a field of the request body: nothing when
    the body does not define it. *)
Definition sent_field (body : value) (k : string) : option value :=
  match jsonify (member body k) with
  | VUndefined => None
  | v => Some v
  end.

(** The ids of the models and the languages the service advertises for a
    provider. *)
Definition advertised_models (provider : string) : list value :=
  map (fun m => member m "id") (items (member Catalogue.getAvailableModels provider)).

Definition advertised_languages (provider : string) : list value :=
  items (member Catalogue.getSupportedLanguages provider).

Definition is_store (e : Event) : bool :=
  match e with Store _ => true | _ => false end.

End Notions.

(* ================================================================== *)
(** ** Further sample inputs                                           *)
(* ================================================================== *)

Module Scenario.
Import Js World Speech.

(** An environment with both keys set, whose every HTTP call ends in
    [answer] and whose store saves every row. *)
Definition env_answering (answer : Z * Result value) : Env :=
  {| DEEPGRAM_API_KEY := VStr "dg-key";
     DEEPGRAM_PROJECT_ID := VStr "proj-1";
     ASSEMBLYAI_API_KEY := VStr "aai-key";
     http := fun _ _ => answer;
     store := Sample.store_ok;
     pause := fun _ => 0 |}.

(** An environment without any key. *)
Definition env_without_keys : Env :=
  {| DEEPGRAM_API_KEY := VUndefined;
     DEEPGRAM_PROJECT_ID := VUndefined;
     ASSEMBLYAI_API_KEY := VUndefined;
     http := fun _ _ => (100, Ok Sample.hello_world);
     store := Sample.store_ok;
     pause := fun _ => 0 |}.

(** The call [transcribeWithDeepgram] makes for an empty buffer and no
    options, and the error it throws on a 401. *)
Definition default_call : HttpRequest :=
  {| http_method := "post";
     url := "https://api.deepgram.com/v1/listen";
     payload := Raw [];
     headers := VObj [("Authorization", VStr "Token dg-key");
                      ("Content-Type", VStr "audio/wav")];
     params := VObj [("model", VStr "nova-2");
                     ("language", VStr "en-US");
                     ("smart_format", VBool true);
                     ("punctuate", VBool true);
                     ("diarize", VBool false);
                     ("utterances", VBool true)] |}.

Definition wrapped_401 : Exn :=
  Error "Deepgram transcription failed: Request failed with status code 401".




(** A store client for the record routes that reports an error for every
    query, and one that saves and returns what it is given. *)
Definition db_down (_ : Records.Query) : StoreReply :=
  {| data := VNull;
     error := VObj [("message", VStr "permission denied for table transcriptions")] |}.

Definition db_ok (q : Records.Query) : StoreReply :=
  match q with
  | Records.InsertReturning _ (VArr [VObj row]) =>
      {| data := VObj (("id", Sample.new_id) :: row); error := VNull |}
  | Records.UpdateReturning _ (VObj patch) _ key =>
      {| data := VObj (("id", key) :: patch); error := VNull |}
  | Records.SelectAllOrdered _ _ _ =>
      {| data := VArr [Sample.one_row]; error := VNull |}
  | _ => {| data := VNull; error := VNull |}
  end.

(** A store client that finds no row to update. *)
Definition db_empty (q : Records.Query) : StoreReply :=
  match q with
  | Records.UpdateReturning _ _ _ _ => RowStore.single []
  | Records.SelectAllOrdered _ _ _ => {| data := VArr []; error := VNull |}
  | _ => {| data := VNull; error := VNull |}
  end.

Definition rename : value := VObj [("filename", VStr "renamed.wav")].

(** An upload of one byte more than the limit, and the form that carries
    a file under the field [audio]. *)
Definition oversize : File :=
  {| originalname := "sample.wav";
     size := 2 ^ 30 + 1;
     mimetype := VStr "audio/wav";
     buffer := repeat Byte.x00 (Z.to_nat (2 ^ 30 + 1)) |}.

Definition form_with (f : File) : Upload.Form :=
  {| Upload.parts := [{| Upload.fieldname := "audio"; Upload.content := f |}];
     Upload.text_fields := VObj [];
     Upload.search := VObj [] |}.

Definition null_alternative : value :=
  VObj [("results", VObj [("channels", VArr [VObj [("alternatives", VArr [VNull])]])])].

End Scenario.

(* ================================================================== *)
(** ** Properties                                                      *)
(* ================================================================== *)

Import Js World Speech Observe.
Import SpeechToTextService.

(** *** File names and extensions *)

Lemma lower_char_dot (c : ascii) :
  Ascii.eqb (lower_char c) "." = Ascii.eqb c ".".
Proof.
  destruct c as [b0 b1 b2 b3 b4 b5 b6 b7].
  destruct b0, b1, b2, b3, b4, b5, b6, b7; reflexivity.
Qed.

Lemma toLowerCase_has_dot (s : string) :
  has_char "." (toLowerCase s) = has_char "." s.
Proof.
  induction s as [|c s IH]; simpl; [reflexivity|].
  now rewrite lower_char_dot, IH.
Qed.

Lemma append_assoc (a b c : string) : ((a ++ b) ++ c = a ++ (b ++ c))%string.
Proof. induction a as [|x a IH]; simpl; [reflexivity | now rewrite IH]. Qed.

Lemma append_empty (a : string) : (a ++ EmptyString = a)%string.
Proof. induction a as [|x a IH]; simpl; [reflexivity | now rewrite IH]. Qed.

Lemma split_from_without_sep (sep : ascii) (s cur : string) :
  has_char sep s = false -> split_from sep cur s = [(cur ++ s)%string].
Proof.
  revert cur. induction s as [|c s IH]; intros cur H; simpl in *.
  - now rewrite append_empty.
  - apply orb_false_iff in H. destruct H as [Hc Hs].
    rewrite Hc, (IH _ Hs), append_assoc. reflexivity.
Qed.

Lemma extension_without_dot (name : string) :
  has_char "." name = false -> extension name = VStr (toLowerCase name).
Proof.
  intros H. unfold extension, split.
  rewrite split_from_without_sep by now rewrite toLowerCase_has_dot.
  reflexivity.
Qed.

Lemma includes_allowedFormats (s : string) :
  includes allowedFormats (VStr s) = true <-> In s allowed_extensions.
Proof.
  unfold includes, allowedFormats, allowed_extensions. simpl.
  rewrite !orb_true_iff, !String.eqb_eq. intuition congruence.
Qed.

Lemma passes_extension_includes env req f :
  file req = Some f ->
  passes env req ExtensionAllowed = includes allowedFormats (extension (originalname f)).
Proof.
  intros Hf. unfold passes. rewrite Hf.
  unfold includes, allowedFormats, allowed_extensions. simpl.
  reflexivity.
Qed.

(** *** The upload handler *)

(** The provider call is the first thing [transcribe] does, and the only
    HTTP call; what follows is at most the insert. *)
Lemma transcribe_log env f key w :
  exists rest,
    log (snd (try_catch (transcribe env f key) on_error w))
    = (log w ++ Http (deepgram_request key (DEEPGRAM_PROJECT_ID env) f) :: rest)%list
    /\ filter is_http rest = [].
Proof.
  unfold try_catch, transcribe, bind, axios, lift.
  destruct (http env _ w) as [ms [response_data|e]]; simpl;
    [|exists []; split; reflexivity].
  destruct (get response_data "results") as [results|e]; simpl;
    [|exists []; split; reflexivity].
  destruct (negb (truthy results) || _ || _); simpl;
    [exists []; split; reflexivity|].
  destruct (negb (truthy _) || _); simpl;
    [exists []; split; reflexivity|].
  destruct (get _ "transcript") as [text|e]; simpl;
    [|exists []; split; reflexivity].
  destruct (get _ "confidence") as [confidence|e]; simpl;
    [|exists []; split; reflexivity].
  unfold supabase. simpl.
  destruct (store env _ _) as [ms' reply]; simpl.
  eexists. rewrite <- app_assoc. simpl. split; reflexivity.
Qed.

Lemma size_check (z : Z) : (z >? 1024 * 1024 * 1024) = negb (z <=? one_GiB).
Proof.
  change (1024 * 1024 * 1024) with one_GiB.
  rewrite Z.gtb_ltb, Z.leb_antisym, negb_involutive. reflexivity.
Qed.

Lemma rejects_extension env req f w :
  file req = Some f ->
  size f <= one_GiB ->
  includes allowedFormats (extension (originalname f)) = false ->
  transcribe_web env req w = (rejection ExtensionAllowed, w).
Proof.
  intros Hfile Hsize Hext. unfold transcribe_web, try_catch.
  rewrite Hfile, size_check.
  apply Z.leb_le in Hsize. rewrite Hsize, Hext. reflexivity.
Qed.

Lemma accepted_runs_transcribe env req w :
  first_failing env req = None ->
  exists f,
    file req = Some f
    /\ transcribe_web env req w
       = try_catch (transcribe env f (DEEPGRAM_API_KEY env)) on_error w.
Proof.
  unfold first_failing, checks_in_order. cbn [find].
  destruct (file req) as [f|] eqn:Hfile.
  - rewrite (passes_extension_includes env req f Hfile).
    unfold passes. rewrite Hfile. cbn [negb].
    unfold transcribe_web, try_catch. rewrite Hfile, size_check.
    destruct (size f <=? one_GiB); cbn [negb]; [|discriminate].
    destruct (includes allowedFormats (extension (originalname f)));
      cbn [negb]; [|discriminate].
    destruct (truthy (DEEPGRAM_API_KEY env)); cbn [negb]; [|discriminate].
    intros _. exists f. split; reflexivity.
  - unfold passes. rewrite Hfile. cbn [negb]. discriminate.
Qed.

Lemma best_alternative_Some data best :
  best_alternative data = Some best ->
  get data "results" = Ok (member data "results")
  /\ (negb (truthy (member data "results"))
      || negb (truthy (member (member data "results") "channels"))
      || negb (truthy (index (member (member data "results") "channels") 0))) = false
  /\ (negb (truthy (member (index (member (member data "results") "channels") 0)
                      "alternatives"))
      || strict_eq
           (member (member (index (member (member data "results") "channels") 0)
                      "alternatives") "length")
           (num 0)) = false
  /\ best = index (member (index (member (member data "results") "channels") 0)
                     "alternatives") 0
  /\ get best "transcript" = Ok (member best "transcript")
  /\ get best "confidence" = Ok (member best "confidence").
Proof.
  unfold best_alternative.
  destruct (nullish data) eqn:Hnull; [discriminate|].
  match goal with |- (if ?c then _ else _) = _ -> _ => destruct c eqn:Hc end;
    [|discriminate].
  intros H. injection H as <-.
  repeat (apply andb_true_iff in Hc; destruct Hc as [Hc ?]).
  repeat match goal with
         | H : negb _ = true |- _ => apply negb_true_iff in H
         end.
  assert (Hget : forall v k, nullish v = false -> get v k = Ok (member v k))
    by (intros v k Hv; destruct v; try discriminate; reflexivity).
  repeat split; auto.
  - rewrite Hc. cbn [negb orb].
    match goal with H : truthy (member _ "channels") = true |- _ => rewrite H end.
    cbn [negb orb].
    match goal with H : truthy (index _ 0) = true |- _ => rewrite H end.
    reflexivity.
  - match goal with H : truthy (member _ "alternatives") = true |- _ => rewrite H end.
    cbn [negb orb]. assumption.
Qed.

(** A request whose provider call succeeds runs to the insert and is
    answered with 200. *)
Lemma transcribe_success env f w ms data best :
  http env (provider_call env f) w = (ms, Ok data) ->
  best_alternative data = Some best ->
  try_catch (transcribe env f (DEEPGRAM_API_KEY env)) on_error w
  = ({| status := 200;
        json := VObj [("success", VBool true);
                      ("transcription", canonical data best);
                      ("service", VStr "deepgram");
                      ("saved",
                        VBool (negb (truthy (error (the_reply env f w ms best)))));
                      ("transcription_id",
                        opt_member (World.data (the_reply env f w ms best)) "id")] |},
     advance (asked env f w ms)
       (fst (store env (the_insert env f w ms best) (asked env f w ms)))
       (Store (the_insert env f w ms best))).
Proof.
  intros Hhttp Hbest.
  destruct (best_alternative_Some data best Hbest)
    as (Hres & Hchan & Halt & Hb & Htext & Hconf).
  unfold try_catch, transcribe, bind, axios, lift.
  fold (provider_call env f). rewrite Hhttp, Hres, Hchan, Halt.
  rewrite <- Hb, Htext, Hconf.
  unfold Date_now, supabase, ret.
  fold (answered env f w ms).
  replace (clock (read_clock env (read_clock env (answered env f w ms)))
           - clock (read_clock env (answered env f w ms)))
    with (gap_between_reads env f w ms)
    by (unfold gap_between_reads, read_clock; simpl; lia).
  fold (the_insert env f w ms best). fold (asked env f w ms).
  unfold the_reply.
  destruct (store env (the_insert env f w ms best) (asked env f w ms)) as [ms' reply].
  reflexivity.
Qed.

(** Conversely, a 200 comes only from a provider call that succeeded. *)
Lemma transcribe_200 env f w :
  status (fst (try_catch (transcribe env f (DEEPGRAM_API_KEY env)) on_error w)) = 200 ->
  exists ms data best,
    http env (provider_call env f) w = (ms, Ok data)
    /\ best_alternative data = Some best.
Proof.
  unfold try_catch, transcribe, bind, axios, lift.
  fold (provider_call env f).
  destruct (http env (provider_call env f) w) as [ms [data|e]];
    [|simpl; discriminate].
  unfold get at 1.
  destruct (nullish data) eqn:Hnull;
    [destruct data; try discriminate Hnull; simpl; discriminate|].
  replace (match data with
           | VUndefined => _ | VNull => _ | _ => Ok (member data "results") end)
    with (Ok (member data "results"))
    by (destruct data; try discriminate Hnull; reflexivity).
  destruct (truthy (member data "results")) eqn:H1; [|simpl; discriminate].
  destruct (truthy (member (member data "results") "channels")) eqn:H2;
    [|simpl; discriminate].
  destruct (truthy (index (member (member data "results") "channels") 0)) eqn:H3;
    [|simpl; discriminate].
  cbn [negb orb].
  destruct (truthy (member (index (member (member data "results") "channels") 0)
                      "alternatives")) eqn:H4; [|simpl; discriminate].
  cbn [negb orb].
  destruct (strict_eq _ (num 0)) eqn:H5; [simpl; discriminate|].
  destruct (nullish (index (member (index (member (member data "results") "channels") 0)
                              "alternatives") 0)) eqn:H6.
  - destruct (index (member (index (member (member data "results") "channels") 0)
                       "alternatives") 0); try discriminate H6; simpl; discriminate.
  - intros _. exists ms, data. eexists. split; [reflexivity|].
    unfold best_alternative. rewrite Hnull, H1, H2, H3, H4, H5, H6. reflexivity.
Qed.

(** C10. Whatever the client sends along with an accepted upload, the one
    provider call carries the query options model [nova-2] and language
    [en-US], and a result returned with 200 has language [en-US]; a
    request with the same file and any other body or query is answered
    alike. *)
Theorem C10_fixed_provider_options env req w :
  first_failing env req = None ->
  (exists f rest,
      file req = Some f
      /\ log (snd (transcribe_web env req w))
         = (log w ++ Http (provider_call env f) :: rest)%list
      /\ filter is_http rest = []
      /\ member (params (provider_call env f)) "model" = VStr "nova-2"
      /\ member (params (provider_call env f)) "language" = VStr "en-US")
  /\ (status (fst (transcribe_web env req w)) = 200 ->
      member (member (json (fst (transcribe_web env req w))) "transcription") "language"
      = VStr "en-US")
  /\ (forall req', file req' = file req ->
      transcribe_web env req' w = transcribe_web env req w).
Proof.
  intros Hacc.
  destruct (accepted_runs_transcribe env req w Hacc) as (f & Hfile & Hrun).
  split; [|split].
  - rewrite Hrun.
    destruct (transcribe_log env f (DEEPGRAM_API_KEY env) w) as (rest & Hlog & Hrest).
    exists f, rest. repeat split; assumption || reflexivity.
  - rewrite Hrun. intros H200.
    destruct (transcribe_200 env f w H200) as (ms & data & best & Hhttp & Hbest).
    rewrite (transcribe_success env f w ms data best Hhttp Hbest). reflexivity.
  - intros req' Hsame. unfold transcribe_web. rewrite Hsame. reflexivity.
Qed.

Lemma C10_fixed_provider_options_witness :
  (exists f rest,
      file Sample.sample_wav = Some f
      /\ log (snd (transcribe_web Sample.env_ok Sample.sample_wav Sample.start))
         = (log Sample.start ++ Http (provider_call Sample.env_ok f) :: rest)%list
      /\ filter is_http rest = []
      /\ member (params (provider_call Sample.env_ok f)) "model" = VStr "nova-2"
      /\ member (params (provider_call Sample.env_ok f)) "language" = VStr "en-US")
  /\ (status (fst (transcribe_web Sample.env_ok Sample.sample_wav Sample.start)) = 200 ->
      member (member (json (fst (transcribe_web Sample.env_ok Sample.sample_wav
                                   Sample.start))) "transcription") "language"
      = VStr "en-US")
  /\ (forall req', file req' = file Sample.sample_wav ->
      transcribe_web Sample.env_ok req' Sample.start
      = transcribe_web Sample.env_ok Sample.sample_wav Sample.start).
Proof.
  apply (C10_fixed_provider_options Sample.env_ok Sample.sample_wav Sample.start).
  reflexivity.
Defined.

Lemma accepted_success env req w f ms data best :
  first_failing env req = None ->
  file req = Some f ->
  http env (provider_call env f) w = (ms, Ok data) ->
  best_alternative data = Some best ->
  transcribe_web env req w
  = ({| status := 200;
        json := VObj [("success", VBool true);
                      ("transcription", canonical data best);
                      ("service", VStr "deepgram");
                      ("saved",
                        VBool (negb (truthy (error (the_reply env f w ms best)))));
                      ("transcription_id",
                        opt_member (World.data (the_reply env f w ms best)) "id")] |},
     advance (asked env f w ms)
       (fst (store env (the_insert env f w ms best) (asked env f w ms)))
       (Store (the_insert env f w ms best))).
Proof.
  intros Hacc Hfile Hhttp Hbest.
  destruct (accepted_runs_transcribe env req w Hacc) as (f' & Hfile' & Hrun).
  rewrite Hfile in Hfile'. injection Hfile' as <-.
  rewrite Hrun. apply transcribe_success; assumption.
Qed.

(** C6. When the provider call has succeeded, the handler answers 200 with
    [success: true] and the transcription, whatever the store replies.
    [saved] is the negation of the store's error, and for a store that
    keeps its contract [saved] is true, and [transcription_id] reaches the
    client, exactly when the row was saved. *)
Theorem C6_store_failure_is_not_fatal env req w f ms data best :
  first_failing env req = None ->
  file req = Some f ->
  http env (provider_call env f) w = (ms, Ok data) ->
  best_alternative data = Some best ->
  saved_reply (the_reply env f w ms best) \/ failed_reply (the_reply env f w ms best) ->
  status (fst (transcribe_web env req w)) = 200
  /\ member (json (fst (transcribe_web env req w))) "success" = VBool true
  /\ member (json (fst (transcribe_web env req w))) "transcription"
     = canonical data best
  /\ (member (json (fst (transcribe_web env req w))) "saved" = VBool true
      <-> saved_reply (the_reply env f w ms best))
  /\ (present (json (fst (transcribe_web env req w))) "transcription_id" = true
      <-> saved_reply (the_reply env f w ms best)).
Proof.
  intros Hacc Hfile Hhttp Hbest Hcontract.
  rewrite (accepted_success env req w f ms data best Hacc Hfile Hhttp Hbest).
  cbn [fst status json].
  split; [reflexivity|]. split; [reflexivity|]. split; [reflexivity|].
  destruct Hcontract as [Hsaved | Hfailed].
  - pose proof Hsaved as (Herr & Hdata & id & Hid).
    split; (split; [intros _; exact Hsaved|intros _]).
    + cbn. rewrite Herr. reflexivity.
    + unfold present, opt_member. rewrite Hdata, Hid. reflexivity.
  - destruct Hfailed as (Herr & Hdata).
    assert (Hno : ~ saved_reply (the_reply env f w ms best)).
    { intros (Herr' & _). rewrite Herr' in Herr. discriminate. }
    split; (split; [intros H; exfalso|intros H; contradiction]).
    + cbn in H. rewrite Herr in H. discriminate.
    + unfold present, opt_member in H. rewrite Hdata in H. cbn in H.
      destruct (negb (truthy (error (the_reply env f w ms best)))); discriminate.
Qed.

Lemma C6_store_failure_is_not_fatal_witness :
  status (fst (transcribe_web Sample.env_store_down Sample.sample_wav Sample.start)) = 200
  /\ member (json (fst (transcribe_web Sample.env_store_down Sample.sample_wav
                          Sample.start))) "success" = VBool true
  /\ member (json (fst (transcribe_web Sample.env_store_down Sample.sample_wav
                          Sample.start))) "transcription"
     = canonical Sample.hello_world
         Sample.hello_alternative
  /\ (member (json (fst (transcribe_web Sample.env_store_down Sample.sample_wav
                           Sample.start))) "saved" = VBool true
      <-> saved_reply (the_reply Sample.env_store_down (Sample.audio "sample.wav")
                        Sample.start 2500 Sample.hello_alternative))
  /\ (present (json (fst (transcribe_web Sample.env_store_down Sample.sample_wav
                            Sample.start))) "transcription_id" = true
      <-> saved_reply (the_reply Sample.env_store_down (Sample.audio "sample.wav")
                        Sample.start 2500 Sample.hello_alternative)).
Proof.
  apply (C6_store_failure_is_not_fatal Sample.env_store_down Sample.sample_wav
           Sample.start
           (Sample.audio "sample.wav")
           2500 Sample.hello_world
           Sample.hello_alternative).
  - reflexivity.
  - reflexivity.
  - reflexivity.
  - reflexivity.
  - right. split; reflexivity.
Defined.

(** C1. On a successful request the handler inserts one row, and its
    [processing_time_ms] is the time between two readings of the clock
    that both follow the provider's answer. The [ms] milliseconds the
    provider call took, from the request to its result, are not in it. *)
Theorem C1_processing_time_is_gap_between_reads env req w f ms data best :
  first_failing env req = None ->
  file req = Some f ->
  http env (provider_call env f) w = (ms, Ok data) ->
  best_alternative data = Some best ->
  exists row,
    log (snd (transcribe_web env req w))
    = (log w ++ [Http (provider_call env f);
                 Store (InsertSelectSingle "transcriptions" (VArr [row]))])%list
    /\ member row "processing_time_ms" = num (gap_between_reads env f w ms)
    /\ clock (answered env f w ms) - clock w = ms.
Proof.
  intros Hacc Hfile Hhttp Hbest.
  rewrite (accepted_success env req w f ms data best Hacc Hfile Hhttp Hbest).
  eexists. split; [|split].
  - cbn [snd]. unfold advance, asked, read_clock, answered, advance, the_insert.
    cbn [log]. rewrite <- app_assoc. reflexivity.
  - reflexivity.
  - unfold answered, advance. cbn [clock]. lia.
Qed.

(** The failing input of C1: the provider takes 2500 ms, the row says 0. *)
Lemma C1_processing_time_is_gap_between_reads_witness :
  exists row,
    log (snd (transcribe_web Sample.env_ok Sample.sample_wav Sample.start))
    = [Http (provider_call Sample.env_ok
               (Sample.audio "sample.wav"));
       Store (InsertSelectSingle "transcriptions" (VArr [row]))]
    /\ member row "processing_time_ms" = num 0
    /\ clock (answered Sample.env_ok
                (Sample.audio "sample.wav")
                Sample.start 2500)
       - clock Sample.start = 2500.
Proof.
  apply (C1_processing_time_is_gap_between_reads Sample.env_ok Sample.sample_wav
           Sample.start
           (Sample.audio "sample.wav")
           2500 Sample.hello_world
           Sample.hello_alternative).
  - reflexivity.
  - reflexivity.
  - reflexivity.
  - reflexivity.
Defined.

(** *** Answers without alternatives *)

Lemma deepgram_config_options apiKey audioBuffer options config :
  deepgram_config apiKey audioBuffer options = Ok config ->
  default_to options (VObj []) = options.
Proof. destruct options; try reflexivity. discriminate. Qed.

Lemma assemblyai_submit_options apiKey audioUrl options submit :
  assemblyai_submit apiKey audioUrl options = Ok submit ->
  default_to options (VObj []) = options.
Proof. destruct options; try reflexivity. discriminate. Qed.

Lemma lacks_alternatives_spec data :
  lacks_alternatives data = true ->
  get data "results" = Ok (member data "results")
  /\ (negb (truthy (member data "results"))
      || negb (truthy (member (member data "results") "channels"))
      || negb (truthy (index (member (member data "results") "channels") 0))) = false
  /\ (negb (truthy (member (index (member (member data "results") "channels") 0)
                      "alternatives"))
      || strict_eq
           (member (member (index (member (member data "results") "channels") 0)
                      "alternatives") "length")
           (num 0)) = true.
Proof.
  unfold lacks_alternatives. cbv zeta. intros H.
  repeat (apply andb_true_iff in H; destruct H as [H ?]).
  apply negb_true_iff in H.
  split; [destruct data; try discriminate H; reflexivity|].
  split.
  - repeat match goal with Ht : truthy _ = true |- _ => rewrite Ht; clear Ht end.
    reflexivity.
  - destruct (member (index (member (member data "results") "channels") 0)
                "alternatives") as [| | | | | [|x xs] | |]; try discriminate; reflexivity.
Qed.

(** C5. When the first channel of the provider's answer has no list of
    alternatives, or an empty one, the upload handler answers 500 with the
    error [No transcription alternatives found] and asks the store
    nothing; the normalizer throws an [Error] with that message, and the
    synchronous adapter rethrows it under its own prefix. Each outcome is
    a value of the model: nothing escapes the handler. *)
Theorem C5_no_alternatives_is_handled env req w f ms data :
  first_failing env req = None ->
  file req = Some f ->
  http env (provider_call env f) w = (ms, Ok data) ->
  lacks_alternatives data = true ->
  transcribe_web env req w
  = ({| status := 500; json := error_body "No transcription alternatives found" |},
     answered env f w ms)
  /\ formatDeepgramResponse data = Throw (Error "No transcription alternatives found")
  /\ forall env' audioBuffer options config w' ms',
       truthy (DEEPGRAM_API_KEY env') = true ->
       deepgram_config (DEEPGRAM_API_KEY env') audioBuffer options = Ok config ->
       http env' config w' = (ms', Ok data) ->
       transcribeWithDeepgram env' audioBuffer options w'
       = (Throw (Error "Deepgram transcription failed: No transcription alternatives found"),
          advance w' ms' (Http config)).
Proof.
  intros Hacc Hfile Hhttp Hlacks.
  destruct (lacks_alternatives_spec data Hlacks) as (Hres & Hchan & Halt).
  split; [|split].
  - destruct (accepted_runs_transcribe env req w Hacc) as (f' & Hfile' & Hrun).
    rewrite Hfile in Hfile'. injection Hfile' as <-.
    rewrite Hrun. unfold try_catch, transcribe, bind, axios, lift.
    fold (provider_call env f). rewrite Hhttp, Hres, Hchan, Halt. reflexivity.
  - unfold formatDeepgramResponse, rbind. rewrite Hres, Hchan, Halt. reflexivity.
  - intros env' audioBuffer options config w' ms' Hkey Hconfig Hhttp'.
    unfold transcribeWithDeepgram, bind, lift, axios. cbv zeta.
    rewrite (deepgram_config_options _ _ _ _ Hconfig).
    rewrite Hkey, Hconfig. cbn [negb]. rewrite Hhttp'.
    unfold formatDeepgramResponse, rbind. rewrite Hres, Hchan, Halt. reflexivity.
Qed.

Lemma C5_no_alternatives_is_handled_witness :
  transcribe_web Sample.env_no_alternatives Sample.sample_wav Sample.start
  = ({| status := 500; json := error_body "No transcription alternatives found" |},
     answered Sample.env_no_alternatives (Sample.audio "sample.wav") Sample.start 900)
  /\ formatDeepgramResponse Sample.no_alternatives
     = Throw (Error "No transcription alternatives found")
  /\ forall env' audioBuffer options config w' ms',
       truthy (DEEPGRAM_API_KEY env') = true ->
       deepgram_config (DEEPGRAM_API_KEY env') audioBuffer options = Ok config ->
       http env' config w' = (ms', Ok Sample.no_alternatives) ->
       transcribeWithDeepgram env' audioBuffer options w'
       = (Throw (Error "Deepgram transcription failed: No transcription alternatives found"),
          advance w' ms' (Http config)).
Proof.
  apply (C5_no_alternatives_is_handled Sample.env_no_alternatives Sample.sample_wav
           Sample.start (Sample.audio "sample.wav") 900 Sample.no_alternatives).
  - reflexivity.
  - reflexivity.
  - reflexivity.
  - reflexivity.
Defined.

(** *** Upstream failures *)

Lemma strict_eq_num (v : value) (z : Z) :
  strict_eq v (num z) = true <-> v = num z.
Proof.
  unfold num. split.
  - destruct v as [| | | [x|x] | | | |]; simpl; try discriminate.
    intros H. apply Z.eqb_eq in H. now subst.
  - intros ->. simpl. apply Z.eqb_refl.
Qed.

Lemma strict_eq_num_false (v : value) (z : Z) :
  v <> num z -> strict_eq v (num z) = false.
Proof.
  intros H. destruct (strict_eq v (num z)) eqn:E; [|reflexivity].
  apply strict_eq_num in E. contradiction.
Qed.

Lemma provider_failure env req w f ms error :
  first_failing env req = None ->
  file req = Some f ->
  http env (provider_call env f) w = (ms, Throw error) ->
  transcribe_web env req w = (on_error error, answered env f w ms).
Proof.
  intros Hacc Hfile Hhttp.
  destruct (accepted_runs_transcribe env req w Hacc) as (f' & Hfile' & Hrun).
  rewrite Hfile in Hfile'. injection Hfile' as <-.
  rewrite Hrun. unfold try_catch, transcribe, bind, axios.
  fold (provider_call env f). rewrite Hhttp. reflexivity.
Qed.

(** C8. When the provider call fails, the handler answers 500, and the
    [error] of the body follows the upstream status: a fixed message for
    401, for 413 and for 400; for anything else the error the upstream
    answer supplies, and [Transcription failed] when it supplies none. *)
Theorem C8_upstream_error_mapping env req w f ms error :
  first_failing env req = None ->
  file req = Some f ->
  http env (provider_call env f) w = (ms, Throw error) ->
  status (fst (transcribe_web env req w)) = 500
  /\ (upstream_status error = num 401 ->
      member (json (fst (transcribe_web env req w))) "error"
      = VStr "Invalid API key. Please check your Deepgram credentials.")
  /\ (upstream_status error = num 413 ->
      member (json (fst (transcribe_web env req w))) "error"
      = VStr "Audio file too large. Please use a smaller file.")
  /\ (upstream_status error = num 400 ->
      member (json (fst (transcribe_web env req w))) "error"
      = VStr "Invalid audio format. Please use MP3, WAV, M4A, or FLAC.")
  /\ (upstream_status error <> num 401 ->
      upstream_status error <> num 413 ->
      upstream_status error <> num 400 ->
      member (json (fst (transcribe_web env req w))) "error"
      = if truthy (upstream_message error) then upstream_message error
        else VStr "Transcription failed").
Proof.
  intros Hacc Hfile Hhttp.
  rewrite (provider_failure env req w f ms error Hacc Hfile Hhttp).
  cbn [fst status json on_error member lookup String.eqb Ascii.eqb Bool.eqb].
  unfold errorMessage. fold (upstream_status error).
  split; [reflexivity|].
  split; [intros ->; reflexivity|].
  split; [intros ->; reflexivity|].
  split; [intros ->; reflexivity|].
  intros H401 H413 H400.
  rewrite !strict_eq_num_false by assumption.
  fold (upstream_message error).
  destruct (truthy (upstream_message error)) eqn:Hmsg; [|reflexivity].
  unfold upstream_message, opt_member in *.
  destruct (nullish (response error)); [discriminate Hmsg|].
  destruct (nullish (member (response error) "data")); [discriminate Hmsg|].
  reflexivity.
Qed.

Lemma C8_upstream_error_mapping_witness :
  status (fst (transcribe_web Sample.env_unauthorized Sample.sample_wav Sample.start))
  = 500
  /\ (upstream_status Sample.unauthorized = num 401 ->
      member (json (fst (transcribe_web Sample.env_unauthorized Sample.sample_wav
                           Sample.start))) "error"
      = VStr "Invalid API key. Please check your Deepgram credentials.")
  /\ (upstream_status Sample.unauthorized = num 413 ->
      member (json (fst (transcribe_web Sample.env_unauthorized Sample.sample_wav
                           Sample.start))) "error"
      = VStr "Audio file too large. Please use a smaller file.")
  /\ (upstream_status Sample.unauthorized = num 400 ->
      member (json (fst (transcribe_web Sample.env_unauthorized Sample.sample_wav
                           Sample.start))) "error"
      = VStr "Invalid audio format. Please use MP3, WAV, M4A, or FLAC.")
  /\ (upstream_status Sample.unauthorized <> num 401 ->
      upstream_status Sample.unauthorized <> num 413 ->
      upstream_status Sample.unauthorized <> num 400 ->
      member (json (fst (transcribe_web Sample.env_unauthorized Sample.sample_wav
                           Sample.start))) "error"
      = if truthy (upstream_message Sample.unauthorized)
        then upstream_message Sample.unauthorized
        else VStr "Transcription failed").
Proof.
  apply (C8_upstream_error_mapping Sample.env_unauthorized Sample.sample_wav
           Sample.start (Sample.audio "sample.wav") 120 Sample.unauthorized).
  - reflexivity.
  - reflexivity.
  - reflexivity.
Defined.

(** *** Records by id *)

Import Transcriptions.

(** What the handler makes of each kind of reply. *)
Lemma get_by_id_reply env id w :
  fst (get_by_id env id w)
  = let reply := snd (store env (SelectEqSingle "transcriptions" "id" (VStr id)) w) in
    if truthy (error reply)
    then {| status := 500; json := error_body "Failed to fetch transcription" |}
    else if truthy (World.data reply)
    then {| status := 200; json := World.data reply |}
    else {| status := 404; json := error_body "Transcription not found" |}.
Proof.
  unfold get_by_id, try_catch, bind, supabase.
  destruct (store env _ w) as [ms reply]. cbn [snd].
  destruct (truthy (error reply)); [reflexivity|].
  destruct (truthy (World.data reply)); reflexivity.
Qed.

(** C2. When the store holds no row with the requested id, [single()]
    reports an error, the handler throws it before it looks at the data,
    and the answer is the 500 of the catch block. The 404 is reached only
    by a reply with neither error nor data. *)
Theorem C2_missing_record_gets_500 env id rows w :
  snd (store env (SelectEqSingle "transcriptions" "id" (VStr id)) w)
  = RowStore.select_single rows "id" (VStr id) ->
  RowStore.select_eq "id" (VStr id) rows = [] ->
  fst (get_by_id env id w)
  = {| status := 500; json := error_body "Failed to fetch transcription" |}.
Proof.
  intros Hstore Hnone. rewrite get_by_id_reply, Hstore.
  unfold RowStore.select_single. rewrite Hnone. reflexivity.
Qed.

Lemma C2_missing_record_gets_500_witness :
  fst (get_by_id (Sample.env_holding [Sample.one_row])
         "00000000-0000-4000-8000-000000000000" Sample.start)
  = {| status := 500; json := error_body "Failed to fetch transcription" |}.
Proof.
  apply (C2_missing_record_gets_500 (Sample.env_holding [Sample.one_row])
           "00000000-0000-4000-8000-000000000000" [Sample.one_row] Sample.start).
  - reflexivity.
  - reflexivity.
Defined.

Example get_by_id_found :
  fst (get_by_id (Sample.env_holding [Sample.one_row])
         "7c9e6679-7425-40de-944b-e07fc1f90ae7" Sample.start)
  = {| status := 200; json := Sample.one_row |}.
Proof. reflexivity. Qed.

Lemma get_by_id_404 env id w :
  snd (store env (SelectEqSingle "transcriptions" "id" (VStr id)) w)
  = {| data := VNull; error := VNull |} ->
  fst (get_by_id env id w)
  = {| status := 404; json := error_body "Transcription not found" |}.
Proof. intros H. rewrite get_by_id_reply, H. reflexivity. Qed.

(** *** The normalizers *)

(** C3, as stated, fails: a job answer without [text] and a provider
    answer whose alternative has no [transcript] are normalized without
    an error, into results whose [text] and [confidence] are
    [undefined]. *)
Lemma C3_absent_text_is_not_an_error :
  member Sample.job_without_text "text" = VUndefined
  /\ formatAssemblyAIResponse Sample.job_without_text
     = Ok (VObj [("text", VUndefined);
                 ("confidence", VUndefined);
                 ("words", VArr []);
                 ("language", VStr "en");
                 ("duration", VNull);
                 ("utterances", VArr []);
                 ("speaker_labels", VNull);
                 ("chapters", VArr []);
                 ("entities", VArr [])])
  /\ best_alternative Sample.answer_without_transcript = Some (VObj [("words", VArr [])])
  /\ formatDeepgramResponse Sample.answer_without_transcript
     = Ok (VObj [("text", VUndefined);
                 ("confidence", VUndefined);
                 ("words", VArr []);
                 ("language", VStr "en-US");
                 ("duration", VNull);
                 ("utterances", VArr []);
                 ("speaker_labels", VNull)]).
Proof. repeat split. Qed.

(** C3, amended. Neither normalizer checks the transcript text. Given a
    job answer, and given a provider answer that has a first alternative,
    both return a result; [text] and [confidence] are copied, so that an
    absent one stays absent; every other absent field gets its default:
    an empty sequence, [null], or the language tag [en] / [en-US]. *)
Theorem C3_absent_text_is_passed_through (job data best : value) :
  nullish job = false ->
  best_alternative data = Some best ->
  (exists result,
      formatAssemblyAIResponse job = Ok result
      /\ member result "text" = member job "text"
      /\ Forall (defaults_to job result) assemblyai_defaults)
  /\ (exists result,
         formatDeepgramResponse data = Ok result
         /\ member result "text" = member best "transcript"
         /\ Forall (defaults_to best result) deepgram_defaults
         /\ (opt_member (member data "metadata") "language" = VUndefined ->
             member result "language" = VStr "en-US")
         /\ (opt_member (member data "metadata") "duration" = VUndefined ->
             member result "duration" = VNull)).
Proof.
  intros Hjob Hbest. split.
  - unfold formatAssemblyAIResponse, rbind.
    replace (get job "text") with (Ok (member job "text"))
      by (destruct job; try discriminate Hjob; reflexivity).
    eexists. split; [reflexivity|]. split; [reflexivity|].
    unfold assemblyai_defaults, defaults_to.
    repeat constructor; cbn; intros ->; reflexivity.
  - destruct (best_alternative_Some data best Hbest)
      as (Hres & Hchan & Halt & Hb & Htext & _).
    unfold formatDeepgramResponse, rbind.
    rewrite Hres, Hchan, Halt, <- Hb, Htext.
    eexists. split; [reflexivity|]. split; [reflexivity|].
    split; [|split].
    + unfold deepgram_defaults, defaults_to.
      repeat constructor; cbn; intros ->; reflexivity.
    + cbn. intros ->. reflexivity.
    + cbn. intros ->. reflexivity.
Qed.

Lemma C3_absent_text_is_passed_through_witness :
  (exists result,
      formatAssemblyAIResponse Sample.job_without_text = Ok result
      /\ member result "text" = member Sample.job_without_text "text"
      /\ Forall (defaults_to Sample.job_without_text result) assemblyai_defaults)
  /\ (exists result,
         formatDeepgramResponse Sample.answer_without_transcript = Ok result
         /\ member result "text" = member (VObj [("words", VArr [])]) "transcript"
         /\ Forall (defaults_to (VObj [("words", VArr [])]) result) deepgram_defaults
         /\ (opt_member (member Sample.answer_without_transcript "metadata") "language"
             = VUndefined ->
             member result "language" = VStr "en-US")
         /\ (opt_member (member Sample.answer_without_transcript "metadata") "duration"
             = VUndefined ->
             member result "duration" = VNull)).
Proof.
  apply (C3_absent_text_is_passed_through Sample.job_without_text
           Sample.answer_without_transcript (VObj [("words", VArr [])])).
  - reflexivity.
  - reflexivity.
Defined.

(** *** The polling adapter *)

Section Polling.
Variable env : Env.
Variable transcriptId : value.


Lemma get_not_nullish (v : value) (k : string) :
  nullish v = false -> get v k = Ok (member v k).
Proof. intros H. destruct v; try discriminate H; reflexivity. Qed.




End Polling.








Example two_polls_two_status_checks :
  exists w',
    transcribeWithAssemblyAI Sample.env_job 5 [] (VObj []) Sample.start
    = Some (Ok (VObj [("text", VStr "hello world");
                      ("confidence", VNum (NFrac "0.95"));
                      ("words", VArr []);
                      ("language", VStr "en");
                      ("duration", VNull);
                      ("utterances", VArr []);
                      ("speaker_labels", VNull);
                      ("chapters", VArr []);
                      ("entities", VArr [])]), w')
    /\ status_checks (log w') = 2%nat
    /\ filter (fun e => match e with Sleep _ => true | _ => false end) (log w')
       = [Sleep 1000]
    /\ clock w' = clock Sample.start + 300 + 150 + 80 + 1000 + 90.
Proof. eexists. repeat split. Qed.

(** *** Worked examples *)

(** The end-to-end example of the specification: [sample.wav], 10 KB, the
    provider answering [hello world] with confidence 0.95. *)
Example end_to_end_sample :
  exists w',
    transcribe_web Sample.env_ok Sample.sample_wav Sample.start
    = ({| status := 200;
          json := VObj [("success", VBool true);
                        ("transcription",
                          VObj [("text", VStr "hello world");
                                ("confidence", VNum (NFrac "0.95"));
                                ("language", VStr "en-US");
                                ("duration", VNull)]);
                        ("service", VStr "deepgram");
                        ("saved", VBool true);
                        ("transcription_id", Sample.new_id)] |}, w')
    /\ inserted_rows (log w')
       = [VObj [("filename", VStr "sample.wav");
                ("original_text", VStr "hello world");
                ("file_size", num 10240);
                ("file_type", VStr "audio/wav");
                ("processing_time_ms", num 0)]]
    /\ clock w' - clock Sample.start = 2540.
Proof. eexists. repeat split. Qed.

Example dot_free_names :
  extension "wav" = VStr "wav"
  /\ extension "WebM" = VStr "webm"
  /\ transcribe_web Sample.env_ok (Sample.upload "README") Sample.start
     = (rejection ExtensionAllowed, Sample.start)
  /\ status (fst (transcribe_web Sample.env_ok (Sample.upload "wav") Sample.start)) = 200
  /\ extension "take.1.MP3" = VStr "mp3"
  /\ getContentType "take.1.MP3" = VStr "audio/mpeg".
Proof. repeat split. Qed.

Example project_id_header :
  deepgram_headers (VStr "dg-key") (VStr "proj-1") (VStr "audio/wav")
  = VObj [("Authorization", VStr "Token dg-key");
          ("Content-Type", VStr "audio/wav");
          ("X-Project-Id", VStr "proj-1")]
  /\ deepgram_headers (VStr "dg-key") VUndefined (VStr "audio/wav")
     = VObj [("Authorization", VStr "Token dg-key");
             ("Content-Type", VStr "audio/wav")].
Proof. split; reflexivity. Qed.

Example upstream_message_passes_through :
  errorMessage (Sample.http_error 402
                  (VObj [("error", VStr "Insufficient credits")]))
  = VStr "Insufficient credits"
  /\ errorMessage (Sample.http_error 503 (VStr "Service Unavailable"))
     = VStr "Transcription failed"
  /\ errorMessage (Error "socket hang up") = VStr "Transcription failed".
Proof. repeat split. Qed.

(* ================================================================== *)
(** ** Further properties of the upload handler                        *)
(* ================================================================== *)

Import Notions.

Lemma rejected_request env req w c :
  first_failing env req = Some c ->
  transcribe_web env req w = (rejection c, w).
Proof.
  unfold first_failing, checks_in_order. cbn [find].
  destruct (file req) as [f|] eqn:Hfile.
  - rewrite (passes_extension_includes env req f Hfile).
    unfold passes. rewrite Hfile. cbn [negb].
    unfold transcribe_web, try_catch. rewrite Hfile, size_check.
    destruct (size f <=? one_GiB); cbn [negb];
      [|intros H; injection H as <-; reflexivity].
    destruct (includes allowedFormats (extension (originalname f)));
      cbn [negb]; [|intros H; injection H as <-; reflexivity].
    destruct (truthy (DEEPGRAM_API_KEY env)); cbn [negb];
      [discriminate|intros H; injection H as <-; reflexivity].
  - unfold passes. rewrite Hfile. cbn [negb].
    unfold transcribe_web, try_catch. rewrite Hfile.
    intros H; injection H as <-; reflexivity.
Qed.

Lemma accepted_facts env req f :
  first_failing env req = None ->
  file req = Some f ->
  size f <= one_GiB
  /\ includes allowedFormats (extension (originalname f)) = true
  /\ truthy (DEEPGRAM_API_KEY env) = true.
Proof.
  unfold first_failing, checks_in_order. cbn [find]. intros H Hfile.
  rewrite (passes_extension_includes env req f Hfile) in H.
  unfold passes in H. rewrite Hfile in H. cbn [negb] in H.
  destruct (size f <=? one_GiB) eqn:Hsize; cbn [negb] in H; [|discriminate].
  destruct (includes allowedFormats (extension (originalname f)));
    cbn [negb] in H; [|discriminate].
  destruct (truthy (DEEPGRAM_API_KEY env)); cbn [negb] in H; [|discriminate].
  apply Z.leb_le in Hsize. auto.
Qed.

Lemma errorMessage_truthy (error : Exn) : truthy (errorMessage error) = true.
Proof.
  unfold errorMessage.
  destruct (strict_eq _ (num 401)); [reflexivity|].
  destruct (strict_eq _ (num 413)); [reflexivity|].
  destruct (strict_eq _ (num 400)); [reflexivity|].
  destruct (truthy (opt_member (opt_member (response error) "data") "error")) eqn:H;
    [|reflexivity].
  unfold opt_member in H.
  destruct (nullish (response error)); [discriminate H|].
  destruct (nullish (member (response error) "data")); [discriminate H|].
  exact H.
Qed.

(** Every way [transcribe] can end: the catch block, one of the two 500s
    for an answer without results or alternatives, or the insert and the
    200. *)
Lemma transcribe_outcome env f w :
  (exists ms e,
      try_catch (transcribe env f (DEEPGRAM_API_KEY env)) on_error w
      = (on_error e, answered env f w ms))
  \/ (exists ms,
         try_catch (transcribe env f (DEEPGRAM_API_KEY env)) on_error w
         = ({| status := 500; json := error_body "No transcription results received" |},
            answered env f w ms))
  \/ (exists ms,
         try_catch (transcribe env f (DEEPGRAM_API_KEY env)) on_error w
         = ({| status := 500;
               json := error_body "No transcription alternatives found" |},
            answered env f w ms))
  \/ (exists ms data best,
         http env (provider_call env f) w = (ms, Ok data)
         /\ best_alternative data = Some best).
Proof.
  unfold try_catch, transcribe, bind, axios, lift.
  fold (provider_call env f).
  destruct (http env (provider_call env f) w) as [ms [data|e]] eqn:Hhttp;
    [|left; exists ms, e; reflexivity].
  fold (answered env f w ms).
  destruct (nullish data) eqn:Hnull.
  { left. destruct data; try discriminate Hnull; eexists ms, _; reflexivity. }
  rewrite (get_not_nullish data "results" Hnull).
  destruct (truthy (member data "results")) eqn:H1;
    [|right; left; exists ms; reflexivity].
  destruct (truthy (member (member data "results") "channels")) eqn:H2;
    [|right; left; exists ms; reflexivity].
  destruct (truthy (index (member (member data "results") "channels") 0)) eqn:H3;
    [|right; left; exists ms; reflexivity].
  cbn [negb orb].
  destruct (truthy (member (index (member (member data "results") "channels") 0)
                      "alternatives")) eqn:H4;
    [|right; right; left; exists ms; reflexivity].
  cbn [negb orb].
  destruct (strict_eq _ (num 0)) eqn:H5;
    [right; right; left; exists ms; reflexivity|].
  destruct (nullish (index (member (index (member (member data "results") "channels") 0)
                              "alternatives") 0)) eqn:H6.
  - left.
    destruct (index (member (index (member (member data "results") "channels") 0)
                       "alternatives") 0); try discriminate H6;
      eexists ms, _; reflexivity.
  - right; right; right. exists ms, data. eexists. split; [reflexivity|].
    unfold best_alternative. rewrite Hnull, H1, H2, H3, H4, H5, H6. reflexivity.
Qed.

(** X1. The upload handler answers 200, 400, 413 or 500 and nothing else;
    every answer other than 200 carries a non-empty [error], and a 200
    carries [success: true]. *)
Theorem upload_status_and_error_body (env : Env) (req : Request) (w : World) :
  In (status (fst (transcribe_web env req w))) [200; 400; 413; 500]
  /\ (status (fst (transcribe_web env req w)) <> 200 ->
      truthy (member (json (fst (transcribe_web env req w))) "error") = true)
  /\ (status (fst (transcribe_web env req w)) = 200 ->
      member (json (fst (transcribe_web env req w))) "success" = VBool true).
Proof.
  destruct (first_failing env req) as [c|] eqn:Hfirst.
  - rewrite (rejected_request env req w c Hfirst).
    destruct c; cbn; (split; [tauto|split; [reflexivity|discriminate]]).
  - destruct (accepted_runs_transcribe env req w Hfirst) as (f & Hfile & Hrun).
    rewrite Hrun.
    destruct (transcribe_outcome env f w)
      as [(ms & e & H) | [(ms & H) | [(ms & H) | (ms & data & best & Hhttp & Hbest)]]].
    + rewrite H. cbn [fst status json on_error].
      split; [cbn; tauto|]. split; [|discriminate].
      intros _. cbn. apply errorMessage_truthy.
    + rewrite H. cbn. split; [tauto|split; [reflexivity|discriminate]].
    + rewrite H. cbn. split; [tauto|split; [reflexivity|discriminate]].
    + rewrite (transcribe_success env f w ms data best Hhttp Hbest).
      cbn. split; [tauto|split; [congruence|reflexivity]].
Qed.

(** X2. Whatever happens, the upload handler makes at most one provider
    call and then at most one insert, in that order, and it asks the store
    exactly when it answers 200: nothing is stored for a request that
    fails. *)
Theorem upload_calls (env : Env) (req : Request) (w : World) :
  exists rest,
    log (snd (transcribe_web env req w)) = (log w ++ rest)%list
    /\ (rest = []
        \/ exists f,
             file req = Some f
             /\ (rest = [Http (provider_call env f)]
                 \/ exists row,
                      rest = [Http (provider_call env f);
                              Store (InsertSelectSingle "transcriptions" (VArr [row]))]))
    /\ (status (fst (transcribe_web env req w)) = 200 <-> existsb is_store rest = true).
Proof.
  destruct (first_failing env req) as [c|] eqn:Hfirst.
  - rewrite (rejected_request env req w c Hfirst). exists [].
    split; [now rewrite app_nil_r|]. split; [now left|].
    destruct c; cbn; split; discriminate.
  - destruct (accepted_runs_transcribe env req w Hfirst) as (f & Hfile & Hrun).
    rewrite Hrun.
    assert (Hone : forall ms resp,
               status resp = 500 ->
               try_catch (transcribe env f (DEEPGRAM_API_KEY env)) on_error w
               = (resp, answered env f w ms) ->
               exists rest,
                 log (snd (try_catch (transcribe env f (DEEPGRAM_API_KEY env))
                             on_error w)) = (log w ++ rest)%list
                 /\ (rest = []
                     \/ exists f0,
                          file req = Some f0
                          /\ (rest = [Http (provider_call env f0)]
                              \/ exists row,
                                   rest = [Http (provider_call env f0);
                                           Store (InsertSelectSingle "transcriptions"
                                                    (VArr [row]))]))
                 /\ (status (fst (try_catch (transcribe env f (DEEPGRAM_API_KEY env))
                                    on_error w)) = 200
                     <-> existsb is_store rest = true)).
    { intros ms resp Hst H. rewrite H. exists [Http (provider_call env f)].
      split; [reflexivity|]. split; [right; exists f; split; [exact Hfile|now left]|].
      cbn. rewrite Hst. split; discriminate. }
    destruct (transcribe_outcome env f w)
      as [(ms & e & H) | [(ms & H) | [(ms & H) | (ms & data & best & Hhttp & Hbest)]]].
    + exact (Hone ms (on_error e) eq_refl H).
    + exact (Hone ms {| status := 500; json := _ |} eq_refl H).
    + exact (Hone ms {| status := 500; json := _ |} eq_refl H).
    + rewrite (transcribe_success env f w ms data best Hhttp Hbest).
      eexists. split; [|split].
      * cbn [snd]. unfold advance, asked, read_clock, answered, advance, the_insert.
        cbn [log]. rewrite <- app_assoc. reflexivity.
      * right. exists f. split; [exact Hfile|]. right. eexists. reflexivity.
      * cbn. split; reflexivity.
Qed.

Lemma lacks_results_spec data :
  lacks_results data = true ->
  get data "results" = Ok (member data "results")
  /\ (negb (truthy (member data "results"))
      || negb (truthy (member (member data "results") "channels"))
      || negb (truthy (index (member (member data "results") "channels") 0))) = true.
Proof.
  unfold lacks_results. cbv zeta. intros H.
  apply andb_true_iff in H. destruct H as [Hnull H].
  apply negb_true_iff in Hnull, H.
  split; [apply get_not_nullish; exact Hnull|].
  destruct (truthy (member data "results")); [|reflexivity].
  destruct (truthy (member (member data "results") "channels")); [|reflexivity].
  cbn in H. rewrite H. reflexivity.
Qed.

(** X3. When the provider's answer has no results, no channels or no
    first channel, the upload handler answers 500 [No transcription
    results received] and asks the store nothing; the normalizer rejects
    the same answers, under another message. *)
Theorem no_results_is_handled env req w f ms data :
  first_failing env req = None ->
  file req = Some f ->
  http env (provider_call env f) w = (ms, Ok data) ->
  lacks_results data = true ->
  transcribe_web env req w
  = ({| status := 500; json := error_body "No transcription results received" |},
     answered env f w ms)
  /\ formatDeepgramResponse data = Throw (Error "Invalid Deepgram response format").
Proof.
  intros Hacc Hfile Hhttp Hlacks.
  destruct (lacks_results_spec data Hlacks) as (Hres & Hcond).
  split.
  - destruct (accepted_runs_transcribe env req w Hacc) as (f' & Hfile' & Hrun).
    rewrite Hfile in Hfile'. injection Hfile' as <-.
    rewrite Hrun. unfold try_catch, transcribe, bind, axios, lift.
    fold (provider_call env f). rewrite Hhttp, Hres, Hcond. reflexivity.
  - unfold formatDeepgramResponse, rbind. rewrite Hres, Hcond. reflexivity.
Qed.

(** X4. An answer the handler cannot read, [null] or [undefined] itself or
    with a [null] first alternative, ends in the catch block: 500
    [Transcription failed], the TypeError's text as [message], and no
    insert. *)
Theorem unreadable_answer_is_caught env req w f ms data :
  first_failing env req = None ->
  file req = Some f ->
  http env (provider_call env f) w = (ms, Ok data) ->
  nullish data = true \/ null_first_alternative data = true ->
  exists what,
    transcribe_web env req w
    = ({| status := 500;
          json := VObj [("error", VStr "Transcription failed");
                        ("message", VStr ("Cannot read properties of " ++ what));
                        ("details", VUndefined)] |},
       answered env f w ms).
Proof.
  intros Hacc Hfile Hhttp Hshape.
  destruct (accepted_runs_transcribe env req w Hacc) as (f' & Hfile' & Hrun).
  rewrite Hfile in Hfile'. injection Hfile' as <-.
  rewrite Hrun. unfold try_catch, transcribe, bind, axios, lift.
  fold (provider_call env f). rewrite Hhttp.
  destruct Hshape as [Hnull | Hshape].
  - destruct data; try discriminate Hnull; eexists; reflexivity.
  - unfold null_first_alternative in Hshape. cbv zeta in Hshape.
    repeat (apply andb_true_iff in Hshape; destruct Hshape as [Hshape ?]).
    apply negb_true_iff in Hshape.
    rewrite (get_not_nullish data "results" Hshape).
    repeat match goal with Ht : truthy _ = true |- _ => rewrite Ht; clear Ht end.
    cbn [negb orb].
    destruct (member (index (member (member data "results") "channels") 0)
                "alternatives") as [| | | | | [|a rest] | |]; try discriminate.
    destruct a; try discriminate; eexists; reflexivity.
Qed.

(** X5. The row of a successful request carries the name and the size of
    the upload, the very text that is returned as [transcription.text],
    and as [file_type] the type the upload reported, or the one looked up
    from the extension when it reported none. *)
Theorem inserted_row_fields env req w f ms data best :
  first_failing env req = None ->
  file req = Some f ->
  http env (provider_call env f) w = (ms, Ok data) ->
  best_alternative data = Some best ->
  exists row,
    log (snd (transcribe_web env req w))
    = (log w ++ [Http (provider_call env f);
                 Store (InsertSelectSingle "transcriptions" (VArr [row]))])%list
    /\ member row "filename" = VStr (originalname f)
    /\ member row "original_text"
       = member (member (json (fst (transcribe_web env req w))) "transcription") "text"
    /\ member row "file_size" = num (size f)
    /\ member row "file_type"
       = (if truthy (mimetype f) then mimetype f else getContentType (originalname f)).
Proof.
  intros Hacc Hfile Hhttp Hbest.
  rewrite (accepted_success env req w f ms data best Hacc Hfile Hhttp Hbest).
  eexists. split.
  { cbn [snd]. unfold advance, asked, read_clock, answered, advance, the_insert.
    cbn [log]. rewrite <- app_assoc. reflexivity. }
  repeat split.
Qed.

(** *** The content type sent to the provider *)

Lemma includes_allowed_extension (v : value) :
  includes allowedFormats v = true ->
  exists e, v = VStr e /\ In e allowed_extensions.
Proof.
  intros H. destruct v as [| | | | s | | |]; try discriminate H.
  exists s. split; [reflexivity|]. now apply includes_allowedFormats.
Qed.

Lemma falsy_has_no_entries (v : value) :
  truthy v = false -> own_entries v = [].
Proof.
  destruct v as [| | | | s | | |]; try reflexivity; try discriminate.
  destruct s; [reflexivity|discriminate].
Qed.

(** X6. For every accepted upload the [Content-Type] of the provider call
    is the table's entry for the file's extension, one of the six audio
    types; the default of [getContentType] is never what decides it. The
    project header is sent exactly when a project id is configured. *)
Theorem accepted_content_type env req f :
  first_failing env req = None ->
  file req = Some f ->
  (exists e,
      extension (originalname f) = VStr e
      /\ lookup e (fields contentTypes)
         = Some (member (headers (provider_call env f)) "Content-Type"))
  /\ In (member (headers (provider_call env f)) "Content-Type") audio_types
  /\ member (headers (provider_call env f)) "X-Project-Id"
     = (if truthy (DEEPGRAM_PROJECT_ID env) then DEEPGRAM_PROJECT_ID env
        else VUndefined).
Proof.
  intros Hacc Hfile.
  destruct (accepted_facts env req f Hacc Hfile) as (_ & Hext & _).
  destruct (includes_allowed_extension _ Hext) as (e & He & Hin).
  assert (Hct : member (headers (provider_call env f)) "Content-Type"
                = getContentType (originalname f)).
  { unfold provider_call, deepgram_request. cbn [headers]. unfold deepgram_headers.
    unfold and_then, spread.
    destruct (truthy (DEEPGRAM_PROJECT_ID env)) eqn:Hpid; [reflexivity|].
    rewrite (falsy_has_no_entries _ Hpid). reflexivity. }
  assert (Hpid : member (headers (provider_call env f)) "X-Project-Id"
                 = (if truthy (DEEPGRAM_PROJECT_ID env) then DEEPGRAM_PROJECT_ID env
                    else VUndefined)).
  { unfold provider_call, deepgram_request. cbn [headers]. unfold deepgram_headers.
    unfold and_then, spread.
    destruct (truthy (DEEPGRAM_PROJECT_ID env)) eqn:Hpid; [reflexivity|].
    rewrite (falsy_has_no_entries _ Hpid). reflexivity. }
  rewrite Hct. unfold getContentType. rewrite He. cbn [to_string].
  split; [exists e; split; [reflexivity|]|split; [|exact Hpid]];
    cbn in Hin;
    repeat (destruct Hin as [<- | Hin]; [cbn; tauto || reflexivity|]);
    contradiction.
Qed.

Lemma accepted_content_type_witness :
  (exists e,
      extension "sample.wav" = VStr e
      /\ lookup e (fields contentTypes)
         = Some (member (headers (provider_call Sample.env_ok (Sample.audio "sample.wav")))
                   "Content-Type"))
  /\ In (member (headers (provider_call Sample.env_ok (Sample.audio "sample.wav")))
           "Content-Type") audio_types
  /\ member (headers (provider_call Sample.env_ok (Sample.audio "sample.wav")))
       "X-Project-Id"
     = (if truthy (DEEPGRAM_PROJECT_ID Sample.env_ok)
        then DEEPGRAM_PROJECT_ID Sample.env_ok
        else VUndefined).
Proof.
  apply (accepted_content_type Sample.env_ok Sample.sample_wav
           (Sample.audio "sample.wav")).
  - reflexivity.
  - reflexivity.
Defined.

(** *** The extension of a file name *)

Lemma split_from_app (sep : ascii) (a b cur : string) :
  has_char sep b = false ->
  rev (split_from sep cur (a ++ String sep b))
  = b :: rev (split_from sep cur a).
Proof.
  intros Hb. revert cur. induction a as [|c a IH]; intros cur.
  - cbn [append split_from]. rewrite Ascii.eqb_refl.
    rewrite (split_from_without_sep sep b EmptyString Hb). reflexivity.
  - cbn [append split_from]. destruct (Ascii.eqb c sep).
    + cbn [rev]. rewrite IH. reflexivity.
    + apply IH.
Qed.

Lemma toLowerCase_app (a b : string) :
  toLowerCase (a ++ b) = (toLowerCase a ++ toLowerCase b)%string.
Proof. induction a as [|c a IH]; cbn; [reflexivity|now rewrite IH]. Qed.

(** X7. The extension is what follows the last dot, in lower case: for a
    name [stem.suffix] whose suffix has no dot it is the suffix in lower
    case, whatever dots and capitals the name has. For a name that ends
    in a dot it is the empty string, which is rejected. *)
Theorem extension_after_last_dot (stem suffix : string) :
  has_char "." suffix = false ->
  extension (stem ++ String "." suffix) = VStr (toLowerCase suffix)
  /\ extension (stem ++ ".") = VStr EmptyString
  /\ includes allowedFormats (extension (stem ++ ".")) = false.
Proof.
  intros Hdot.
  assert (Hext : forall s, has_char "." s = false ->
                   extension (stem ++ String "." s) = VStr (toLowerCase s)).
  { intros s Hs. unfold extension, split, pop.
    rewrite toLowerCase_app. cbn [toLowerCase].
    change (lower_char ".") with "."%char.
    rewrite split_from_app by now rewrite toLowerCase_has_dot.
    reflexivity. }
  split; [exact (Hext suffix Hdot)|].
  rewrite (Hext EmptyString eq_refl). split; reflexivity.
Qed.

Lemma extension_after_last_dot_witness :
  extension ("My.Voice.Memo" ++ String "." "WAV") = VStr (toLowerCase "WAV")
  /\ extension ("My.Voice.Memo" ++ ".") = VStr EmptyString
  /\ includes allowedFormats (extension ("My.Voice.Memo" ++ ".")) = false.
Proof.
  apply (extension_after_last_dot "My.Voice.Memo" "WAV"). reflexivity.
Defined.

(** *** The normalizers *)

Lemma formatDeepgramResponse_Ok (data : value) :
  (exists result, formatDeepgramResponse data = Ok result)
  <-> (exists best, best_alternative data = Some best).
Proof.
  split.
  - intros (result & H). unfold formatDeepgramResponse, rbind in H.
    destruct (nullish data) eqn:Hnull;
      [destruct data; discriminate|].
    rewrite (get_not_nullish data "results" Hnull) in H.
    unfold best_alternative. rewrite Hnull.
    destruct (truthy (member data "results")); [|discriminate].
    destruct (truthy (member (member data "results") "channels")); [|discriminate].
    destruct (truthy (index (member (member data "results") "channels") 0));
      [|discriminate].
    cbn [negb orb] in H.
    destruct (truthy (member (index (member (member data "results") "channels") 0)
                        "alternatives")); [|discriminate].
    cbn [negb orb] in H.
    destruct (strict_eq _ (num 0)); [discriminate|].
    destruct (nullish (index (member (index (member (member data "results") "channels")
                                        0) "alternatives") 0)) eqn:Hbest.
    + destruct (index (member (index (member (member data "results") "channels") 0)
                         "alternatives") 0); discriminate.
    + eexists. reflexivity.
  - intros (best & Hbest).
    destruct (best_alternative_Some data best Hbest)
      as (Hres & Hchan & Halt & Hb & Htext & _).
    unfold formatDeepgramResponse, rbind.
    rewrite Hres, Hchan, Halt, <- Hb, Htext. eexists. reflexivity.
Qed.

(** X8. The upload handler and [formatDeepgramResponse] accept the same
    provider answers: the handler answers 200 exactly when the normalizer
    returns a result, and then both report the same text and confidence.
    They read the duration from different places: the handler from
    [results.metadata], the normalizer from [metadata]. *)
Theorem route_agrees_with_normalizer env req w f ms data :
  first_failing env req = None ->
  file req = Some f ->
  http env (provider_call env f) w = (ms, Ok data) ->
  (status (fst (transcribe_web env req w)) = 200
   <-> exists result, formatDeepgramResponse data = Ok result)
  /\ (forall result,
        formatDeepgramResponse data = Ok result ->
        member (member (json (fst (transcribe_web env req w))) "transcription") "text"
        = member result "text"
        /\ member (member (json (fst (transcribe_web env req w))) "transcription")
             "confidence"
           = member result "confidence"
        /\ member (member (json (fst (transcribe_web env req w))) "transcription")
             "duration"
           = or_else (opt_member (member (member data "results") "metadata") "duration")
                     VNull
        /\ member result "duration"
           = or_else (opt_member (member data "metadata") "duration") VNull).
Proof.
  intros Hacc Hfile Hhttp.
  destruct (accepted_runs_transcribe env req w Hacc) as (f' & Hfile' & Hrun).
  rewrite Hfile in Hfile'. injection Hfile' as <-.
  split.
  - rewrite formatDeepgramResponse_Ok. split.
    + rewrite Hrun. intros H200.
      destruct (transcribe_200 env f w H200) as (ms' & data' & best & Hhttp' & Hbest).
      rewrite Hhttp in Hhttp'. injection Hhttp' as <- <-. now exists best.
    + intros (best & Hbest).
      rewrite (accepted_success env req w f ms data best Hacc Hfile Hhttp Hbest).
      reflexivity.
  - intros result Hresult.
    assert (Hex : exists best, best_alternative data = Some best)
      by (apply formatDeepgramResponse_Ok; now exists result).
    destruct Hex as (best & Hbest).
    rewrite (accepted_success env req w f ms data best Hacc Hfile Hhttp Hbest).
    destruct (best_alternative_Some data best Hbest)
      as (Hres & Hchan & Halt & Hb & Htext & _).
    unfold formatDeepgramResponse, rbind in Hresult.
    rewrite Hres, Hchan, Halt, <- Hb, Htext in Hresult.
    injection Hresult as <-. repeat split.
Qed.

Lemma route_agrees_with_normalizer_witness :
  (status (fst (transcribe_web Sample.env_ok Sample.sample_wav Sample.start)) = 200
   <-> exists result, formatDeepgramResponse Sample.hello_world = Ok result)
  /\ (forall result,
        formatDeepgramResponse Sample.hello_world = Ok result ->
        member (member (json (fst (transcribe_web Sample.env_ok Sample.sample_wav
                                     Sample.start))) "transcription") "text"
        = member result "text"
        /\ member (member (json (fst (transcribe_web Sample.env_ok Sample.sample_wav
                                        Sample.start))) "transcription") "confidence"
           = member result "confidence"
        /\ member (member (json (fst (transcribe_web Sample.env_ok Sample.sample_wav
                                        Sample.start))) "transcription") "duration"
           = or_else (opt_member (member (member Sample.hello_world "results") "metadata")
                        "duration") VNull
        /\ member result "duration"
           = or_else (opt_member (member Sample.hello_world "metadata") "duration") VNull).
Proof.
  apply (route_agrees_with_normalizer Sample.env_ok Sample.sample_wav Sample.start
           (Sample.audio "sample.wav") 2500 Sample.hello_world).
  - reflexivity.
  - reflexivity.
  - reflexivity.
Defined.

Lemma or_else_truthy (a d : value) :
  truthy d = true -> truthy (or_else a d) = true.
Proof. intros Hd. unfold or_else. destruct (truthy a) eqn:Ha; assumption. Qed.

Lemma or_else_null (a : value) : null_or_truthy (or_else a VNull).
Proof.
  unfold or_else, null_or_truthy. destruct (truthy a) eqn:Ha; [now right|now left].
Qed.

(** X9. A result of either normalizer has a fixed set of fields. Its
    [words], [utterances], [chapters], [entities] and [language] are
    always truthy, a missing or falsy one having got its default, and
    [duration] and [speaker_labels] are [null] unless the provider's value
    is truthy: a zero duration or an empty language is replaced, not
    passed on. *)
Theorem normalized_result_shape (data result : value) :
  (formatDeepgramResponse data = Ok result ->
   map fst (fields result)
   = ["text"; "confidence"; "words"; "language"; "duration"; "utterances";
      "speaker_labels"]
   /\ truthy (member result "words") = true
   /\ truthy (member result "language") = true
   /\ truthy (member result "utterances") = true
   /\ null_or_truthy (member result "duration")
   /\ null_or_truthy (member result "speaker_labels"))
  /\ (formatAssemblyAIResponse data = Ok result ->
      map fst (fields result)
      = ["text"; "confidence"; "words"; "language"; "duration"; "utterances";
         "speaker_labels"; "chapters"; "entities"]
      /\ truthy (member result "words") = true
      /\ truthy (member result "language") = true
      /\ truthy (member result "utterances") = true
      /\ truthy (member result "chapters") = true
      /\ truthy (member result "entities") = true
      /\ null_or_truthy (member result "duration")
      /\ null_or_truthy (member result "speaker_labels")).
Proof.
  split.
  - unfold formatDeepgramResponse, rbind.
    destruct (get data "results") as [results|e]; [|discriminate].
    destruct (negb (truthy results) || _ || _); [discriminate|].
    destruct (negb (truthy _) || _); [discriminate|].
    destruct (get _ "transcript") as [text|e]; [|discriminate].
    intros H. injection H as <-.
    cbn [fields map fst member lookup String.eqb Ascii.eqb Bool.eqb].
    repeat split; try (apply or_else_truthy; reflexivity); apply or_else_null.
  - unfold formatAssemblyAIResponse, rbind.
    destruct (get data "text") as [text|e]; [|discriminate].
    intros H. injection H as <-.
    cbn [fields map fst member lookup String.eqb Ascii.eqb Bool.eqb].
    repeat split; try (apply or_else_truthy; reflexivity); apply or_else_null.
Qed.

Lemma normalized_result_shape_witness :
  formatAssemblyAIResponse
    (VObj [("text", VStr "hi"); ("audio_duration", num 0); ("language_code", VStr "")])
  = Ok (VObj [("text", VStr "hi"); ("confidence", VUndefined); ("words", VArr []);
              ("language", VStr "en"); ("duration", VNull); ("utterances", VArr []);
              ("speaker_labels", VNull); ("chapters", VArr []); ("entities", VArr [])])
  /\ null_or_truthy
       (member
          (VObj [("text", VStr "hi"); ("confidence", VUndefined); ("words", VArr []);
                 ("language", VStr "en"); ("duration", VNull); ("utterances", VArr []);
                 ("speaker_labels", VNull); ("chapters", VArr []); ("entities", VArr [])])
          "duration").
Proof.
  split; [reflexivity|].
  apply (proj2 (normalized_result_shape
                  (VObj [("text", VStr "hi"); ("audio_duration", num 0);
                         ("language_code", VStr "")]) _)).
  reflexivity.
Defined.

(** *** The adapters *)

(** X10. Without its key an adapter throws at once: no call is made and
    the error is not given the adapter's prefix. *)
Theorem adapters_without_key env audioBuffer options w fuel :
  (truthy (DEEPGRAM_API_KEY env) = false ->
   transcribeWithDeepgram env audioBuffer options w
   = (Throw (Error "Deepgram API key not configured"), w))
  /\ (truthy (ASSEMBLYAI_API_KEY env) = false ->
      transcribeWithAssemblyAI env fuel audioBuffer options w
      = Some (Throw (Error "AssemblyAI API key not configured"), w)).
Proof.
  split; intros Hkey.
  - unfold transcribeWithDeepgram. rewrite Hkey. reflexivity.
  - unfold transcribeWithAssemblyAI. rewrite Hkey. reflexivity.
Qed.

Lemma adapters_without_key_witness :
  transcribeWithDeepgram Scenario.env_without_keys [] (VObj []) Sample.start
  = (Throw (Error "Deepgram API key not configured"), Sample.start)
  /\ transcribeWithAssemblyAI Scenario.env_without_keys 0 [] (VObj []) Sample.start
     = Some (Throw (Error "AssemblyAI API key not configured"), Sample.start).
Proof.
  split.
  - apply (proj1 (adapters_without_key Scenario.env_without_keys [] (VObj [])
                    Sample.start 0)).
    reflexivity.
  - apply (proj2 (adapters_without_key Scenario.env_without_keys [] (VObj [])
                    Sample.start 0)).
    reflexivity.
Defined.

(** X11. Whatever makes [transcribeWithDeepgram] fail, what it throws is a
    plain [Error] without a response: the upstream status and body are
    gone, and only the message survives, behind the adapter's prefix
    unless the key is missing. The adapter has made at most one call, the
    one its options, or [{}] when they are omitted, describe. *)
Theorem deepgram_adapter_failure env audioBuffer options w e w' :
  transcribeWithDeepgram env audioBuffer options w = (Throw e, w') ->
  response e = VUndefined
  /\ ((message e = VStr "Deepgram API key not configured" /\ w' = w)
      \/ exists reason,
           message e = VStr ("Deepgram transcription failed: " ++ reason)
           /\ (w' = w
               \/ exists ms config,
                    deepgram_config (DEEPGRAM_API_KEY env) audioBuffer
                      (default_to options (VObj [])) = Ok config
                    /\ w' = advance w ms (Http config))).
Proof.
  unfold transcribeWithDeepgram, bind, lift, axios. cbv zeta.
  destruct (truthy (DEEPGRAM_API_KEY env)); cbn [negb].
  - destruct (deepgram_config _ audioBuffer (default_to options (VObj [])))
      as [config|e0].
    + destruct (http env config w) as [ms [data|e0]].
      * destruct (formatDeepgramResponse data) as [result|e0]; [discriminate|].
        intros H. injection H as <- <-. split; [reflexivity|].
        right. eexists. split; [reflexivity|]. right. now exists ms, config.
      * intros H. injection H as <- <-. split; [reflexivity|].
        right. eexists. split; [reflexivity|]. right. now exists ms, config.
    + intros H. injection H as <- <-. split; [reflexivity|].
      right. eexists. split; [reflexivity|]. now left.
  - intros H. injection H as <- <-. split; [reflexivity|]. now left.
Qed.

Lemma deepgram_adapter_failure_witness :
  response Scenario.wrapped_401 = VUndefined
  /\ ((message Scenario.wrapped_401 = VStr "Deepgram API key not configured"
       /\ advance Sample.start 120 (Http Scenario.default_call) = Sample.start)
      \/ exists reason,
           message Scenario.wrapped_401
           = VStr ("Deepgram transcription failed: " ++ reason)
           /\ (advance Sample.start 120 (Http Scenario.default_call) = Sample.start
               \/ exists ms config,
                    deepgram_config (DEEPGRAM_API_KEY Sample.env_unauthorized) []
                      (default_to VUndefined (VObj [])) = Ok config
                    /\ advance Sample.start 120 (Http Scenario.default_call)
                       = advance Sample.start ms (Http config))).
Proof.
  apply (deepgram_adapter_failure Sample.env_unauthorized [] VUndefined Sample.start).
  reflexivity.
Defined.

(** *** Options *)

Lemma lookup_assign (k k' : string) (v : value) (fs : list (string * value)) :
  lookup k (assign k' v fs) = if (k =? k')%string then Some v else lookup k fs.
Proof.
  induction fs as [|[k0 x] fs IH]; cbn [assign lookup].
  - reflexivity.
  - destruct (k' =? k0)%string eqn:E0; cbn [lookup].
    + apply String.eqb_eq in E0. subst k0.
      destruct (k =? k')%string; reflexivity.
    + rewrite IH. destruct (k =? k')%string eqn:E; [|reflexivity].
      apply String.eqb_eq in E. subst k'. rewrite E0. reflexivity.
Qed.

Lemma lookup_not_in (k : string) (fs : list (string * value)) :
  ~ In k (map fst fs) -> lookup k fs = None.
Proof.
  induction fs as [|[k0 x] fs IH]; cbn [map fst lookup In]; [reflexivity|].
  intros H. destruct (k =? k0)%string eqn:E.
  - apply String.eqb_eq in E. subst. tauto.
  - apply IH. tauto.
Qed.

(** A spread overrides the fields it names and adds the others. *)
Lemma lookup_spread (k : string) (opts : list (string * value)) :
  distinct_keys opts ->
  forall base,
    lookup k (spread base (VObj opts))
    = match lookup k opts with
      | Some v => Some v
      | None => lookup k base
      end.
Proof.
  unfold spread, distinct_keys. cbn [own_entries].
  induction opts as [|[k0 x] opts IH]; intros Hnodup base; [reflexivity|].
  cbn [fold_left fst snd lookup].
  inversion Hnodup as [|? ? Hnotin Hrest]; subst.
  rewrite (IH Hrest), lookup_assign.
  destruct (k =? k0)%string eqn:E; [|reflexivity].
  apply String.eqb_eq in E. subst k0.
  now rewrite (lookup_not_in k opts Hnotin).
Qed.

Lemma member_absent (k : string) (opts : list (string * value)) :
  lookup k opts = None ->
  In k ["model"; "language"; "diarize"; "speakerLabels"] ->
  member (VObj opts) k = VUndefined.
Proof.
  intros Hnone Hin. cbn [member]. rewrite Hnone.
  cbn in Hin. repeat (destruct Hin as [<- | Hin]; [reflexivity|]). contradiction.
Qed.

(** X12. The query options [transcribeWithDeepgram] sends for an options
    object: every option the caller names goes out as given, also a falsy
    one, for the spread comes after the defaults; every other option has
    its default. So [language: ""] is sent as the empty string, and
    [punctuate: false] switches punctuation off. *)
Theorem deepgram_options_override apiKey audioBuffer opts :
  distinct_keys opts ->
  exists config sent,
    deepgram_config apiKey audioBuffer (VObj opts) = Ok config
    /\ params config = VObj sent
    /\ forall k,
         lookup k sent
         = match lookup k opts with
           | Some v => Some v
           | None => lookup k deepgram_default_params
           end.
Proof.
  intros Hkeys. unfold deepgram_config, rbind. cbn [get].
  eexists. eexists. split; [reflexivity|]. split; [reflexivity|].
  intros k. rewrite (lookup_spread k opts Hkeys).
  destruct (lookup k opts) as [v|] eqn:Hk; [reflexivity|].
  unfold deepgram_default_params. cbn [lookup].
  destruct (k =? "model")%string eqn:E1.
  { apply String.eqb_eq in E1. subst k.
    rewrite (member_absent "model" opts Hk) by (cbn; tauto). reflexivity. }
  destruct (k =? "language")%string eqn:E2.
  { apply String.eqb_eq in E2. subst k.
    rewrite (member_absent "language" opts Hk) by (cbn; tauto). reflexivity. }
  destruct (k =? "smart_format")%string; [reflexivity|].
  destruct (k =? "punctuate")%string; [reflexivity|].
  destruct (k =? "diarize")%string eqn:E5; [|reflexivity].
  apply String.eqb_eq in E5. subst k.
  rewrite (member_absent "diarize" opts Hk) by (cbn; tauto). reflexivity.
Qed.

Lemma deepgram_options_override_witness :
  exists config sent,
    deepgram_config (VStr "dg-key") []
      (VObj [("language", VStr EmptyString); ("punctuate", VBool false)]) = Ok config
    /\ params config = VObj sent
    /\ forall k,
         lookup k sent
         = match lookup k [("language", VStr EmptyString); ("punctuate", VBool false)] with
           | Some v => Some v
           | None => lookup k deepgram_default_params
           end.
Proof.
  apply (deepgram_options_override (VStr "dg-key") []
           [("language", VStr EmptyString); ("punctuate", VBool false)]).
  unfold distinct_keys. cbn. repeat constructor; cbn; intuition discriminate.
Defined.

(** X13. The job [transcribeWithAssemblyAI] submits: every option of the
    caller is forwarded under its own name; [audio_url] is the uploaded
    file's unless an option of that name replaces it; [language_code] is
    the [language] option when that is truthy and [en] otherwise, unless
    an option [language_code] replaces it. *)
Theorem assemblyai_submit_body apiKey audioUrl opts :
  distinct_keys opts ->
  exists submit body,
    assemblyai_submit apiKey audioUrl (VObj opts) = Ok submit
    /\ payload submit = Json (VObj body)
    /\ (forall k v, lookup k opts = Some v -> lookup k body = Some v)
    /\ (lookup "audio_url" opts = None -> lookup "audio_url" body = Some audioUrl)
    /\ (lookup "language_code" opts = None ->
        lookup "language_code" body
        = Some (match lookup "language" opts with
                | Some l => if truthy l then l else VStr "en"
                | None => VStr "en"
                end)).
Proof.
  intros Hkeys. unfold assemblyai_submit, rbind. cbn [get].
  eexists. eexists. split; [reflexivity|]. split; [reflexivity|].
  split; [|split].
  - intros k v Hk. rewrite (lookup_spread k opts Hkeys), Hk. reflexivity.
  - intros Hnone. rewrite (lookup_spread "audio_url" opts Hkeys), Hnone. reflexivity.
  - intros Hnone. rewrite (lookup_spread "language_code" opts Hkeys), Hnone.
    cbn [lookup String.eqb Ascii.eqb Bool.eqb member].
    destruct (lookup "language" opts) as [l|]; reflexivity.
Qed.

Lemma assemblyai_submit_body_witness :
  exists submit body,
    assemblyai_submit (VStr "aai-key") (VStr "https://cdn.assemblyai.com/upload/abc")
      (VObj [("language", VStr "fr"); ("speakerLabels", VBool true)]) = Ok submit
    /\ payload submit = Json (VObj body)
    /\ (forall k v,
          lookup k [("language", VStr "fr"); ("speakerLabels", VBool true)] = Some v ->
          lookup k body = Some v)
    /\ (lookup "audio_url" [("language", VStr "fr"); ("speakerLabels", VBool true)] = None ->
        lookup "audio_url" body = Some (VStr "https://cdn.assemblyai.com/upload/abc"))
    /\ (lookup "language_code" [("language", VStr "fr"); ("speakerLabels", VBool true)]
        = None ->
        lookup "language_code" body
        = Some (match lookup "language"
                        [("language", VStr "fr"); ("speakerLabels", VBool true)] with
                | Some l => if truthy l then l else VStr "en"
                | None => VStr "en"
                end)).
Proof.
  apply (assemblyai_submit_body (VStr "aai-key")
           (VStr "https://cdn.assemblyai.com/upload/abc")
           [("language", VStr "fr"); ("speakerLabels", VBool true)]).
  unfold distinct_keys. cbn. repeat constructor; cbn; intuition discriminate.
Defined.

(** *** Failures of the polling adapter *)

(** X14. When the upload is rejected, [transcribeWithAssemblyAI] stops
    there: it has made that one call, it submits no job and checks no
    status, and it throws the rejection's message behind its prefix. *)
Theorem assemblyai_upload_failure env audioBuffer options w ms e fuel :
  truthy (ASSEMBLYAI_API_KEY env) = true ->
  http env (upload_call env audioBuffer) w = (ms, Throw e) ->
  transcribeWithAssemblyAI env fuel audioBuffer options w
  = Some (Throw (Error ("AssemblyAI transcription failed: " ++ to_string (message e))),
          advance w ms (Http (upload_call env audioBuffer))).
Proof.
  intros Hkey Hhttp.
  unfold transcribeWithAssemblyAI, upload_submit_poll, bind, axios, lift.
  rewrite Hkey. cbn [negb]. fold (upload_call env audioBuffer). rewrite Hhttp.
  reflexivity.
Qed.

Lemma assemblyai_upload_failure_witness :
  transcribeWithAssemblyAI (Scenario.env_answering (120, Throw Sample.unauthorized)) 0 []
    (VObj []) Sample.start
  = Some (Throw (Error ("AssemblyAI transcription failed: "
                        ++ to_string (message Sample.unauthorized))),
          advance Sample.start 120
            (Http (upload_call (Scenario.env_answering (120, Throw Sample.unauthorized))
                     []))).
Proof.
  apply (assemblyai_upload_failure
           (Scenario.env_answering (120, Throw Sample.unauthorized)) [] (VObj [])
           Sample.start 120 Sample.unauthorized 0).
  - reflexivity.
  - reflexivity.
Defined.




(** *** GET /test *)

Import SpeechTest.

(** X16. The key test never leaves the handler: without a key it answers
    500 without any call; a rejected call gives 500 [Deepgram API key test
    failed] with the upstream error as [message] when there is one and
    the rejection's own message otherwise; an answer gives 200 with its
    [projects]. It makes one GET with the key as token, and nothing
    else. *)
Theorem key_test_outcomes env w :
  (truthy (DEEPGRAM_API_KEY env) = false ->
   test env w
   = ({| status := 500; json := error_body "Deepgram API key not configured" |}, w))
  /\ (truthy (DEEPGRAM_API_KEY env) = true ->
      forall ms answer,
        http env (projects_request (DEEPGRAM_API_KEY env)) w = (ms, answer) ->
        snd (test env w) = advance w ms (Http (projects_request (DEEPGRAM_API_KEY env)))
        /\ (forall e,
              answer = Throw e ->
              status (fst (test env w)) = 500
              /\ member (json (fst (test env w))) "error"
                 = VStr "Deepgram API key test failed"
              /\ member (json (fst (test env w))) "message"
                 = (if truthy (upstream_message e) then upstream_message e
                    else message e))
        /\ (forall data,
              answer = Ok data ->
              nullish data = false ->
              fst (test env w)
              = {| status := 200;
                   json := VObj [("success", VBool true);
                                 ("message", VStr "Deepgram API key is valid");
                                 ("projects", member data "projects")] |})).
Proof.
  split.
  - intros Hkey. unfold test, try_catch. rewrite Hkey. reflexivity.
  - intros Hkey ms answer Hhttp.
    unfold test, try_catch, bind, axios, lift. rewrite Hkey. cbn [negb].
    rewrite Hhttp. split; [|split].
    + destruct answer as [data|e]; [|reflexivity].
      destruct (get data "projects"); reflexivity.
    + intros e ->. repeat split.
    + intros data -> Hnull. rewrite (get_not_nullish data "projects" Hnull).
      reflexivity.
Qed.

Lemma key_test_outcomes_witness :
  test Scenario.env_without_keys Sample.start
  = ({| status := 500; json := error_body "Deepgram API key not configured" |},
     Sample.start)
  /\ status (fst (test Sample.env_unauthorized Sample.start)) = 500.
Proof.
  split.
  - apply (proj1 (key_test_outcomes Scenario.env_without_keys Sample.start)).
    reflexivity.
  - destruct (proj2 (key_test_outcomes Sample.env_unauthorized Sample.start) eq_refl
                120 (Throw Sample.unauthorized) eq_refl) as (_ & Hfail & _).
    apply (Hfail Sample.unauthorized eq_refl).
Defined.

(** *** The record routes *)

Import Records.

(** X17. [POST /] asks the store only for a body with a non-empty
    [filename] and a non-empty [original_text]; it answers 400 exactly
    when the body is there and one of the two is missing or empty. The row
    it inserts has the five record fields, copied from the body, and
    nothing else the body may hold. *)
Theorem create_validates (db : Query -> StoreReply) (body : value) :
  (status (fst (create db body)) = 400
   <-> nullish body = false
       /\ (truthy (member body "filename") = false
           \/ truthy (member body "original_text") = false))
  /\ (snd (create db body) = []
      \/ exists row,
           snd (create db body) = [InsertReturning "transcriptions" (VArr [row])]
           /\ map fst (fields row) = record_fields
           /\ (forall k, In k record_fields -> member row k = member body k)
           /\ truthy (member row "filename") = true
           /\ truthy (member row "original_text") = true)
  /\ (status (fst (create db body)) = 201 ->
      exists q,
        snd (create db body) = [q]
        /\ truthy (error (db q)) = false
        /\ json (fst (create db body)) = World.data (db q)).
Proof.
  unfold create.
  destruct (nullish body) eqn:Hnull.
  { cbn. split; [split; [discriminate|intros [H _]; discriminate]|].
    split; [now left|discriminate]. }
  destruct (truthy (member body "filename")) eqn:Hname; cbn [negb orb].
  - destruct (truthy (member body "original_text")) eqn:Htext; cbn [negb].
    + split; [|split].
      * cbn [fst]. destruct (truthy (error (db _))); cbn;
          (split; [discriminate|intros [_ [H|H]]; discriminate]).
      * right. eexists. split; [reflexivity|]. split; [reflexivity|].
        split; [|split; assumption].
        intros k Hk. cbn in Hk.
        repeat (destruct Hk as [<- | Hk]; [reflexivity|]). contradiction.
      * cbn [fst snd]. intros H. eexists. split; [reflexivity|].
        destruct (truthy (error (db _))); [discriminate H|].
        split; reflexivity.
    + cbn. split; [split; [intros _; split; [reflexivity|now right]|reflexivity]|].
      split; [now left|discriminate].
  - cbn. split; [split; [intros _; split; [reflexivity|now left]|reflexivity]|].
    split; [now left|discriminate].
Qed.

Lemma lookup_jsonify_absent (k : string) (fs : list (string * value)) :
  lookup k fs = None -> lookup k (fields (jsonify (VObj fs))) = None.
Proof.
  induction fs as [|[k0 x] fs IH]; [reflexivity|].
  cbn [lookup]. destruct (k =? k0)%string eqn:E; [discriminate|]. intros Hnone.
  specialize (IH Hnone). cbn [jsonify fields] in *.
  destruct (jsonify x); cbn [lookup]; rewrite ?E; exact IH.
Qed.

Lemma lookup_jsonify (k : string) (fs : list (string * value)) :
  distinct_keys fs ->
  lookup k (fields (jsonify (VObj fs)))
  = match lookup k fs with
    | Some x => match jsonify x with VUndefined => None | y => Some y end
    | None => None
    end.
Proof.
  unfold distinct_keys.
  induction fs as [|[k0 x] fs IH]; intros Hnodup; [reflexivity|].
  inversion Hnodup as [|? ? Hnotin Hrest]; subst.
  specialize (IH Hrest). cbn [lookup].
  destruct (k =? k0)%string eqn:E.
  - apply String.eqb_eq in E. subst k0.
    pose proof (lookup_jsonify_absent k fs (lookup_not_in k fs Hnotin)) as Habs.
    cbn [jsonify fields] in *.
    destruct (jsonify x); cbn [lookup]; rewrite ?String.eqb_refl;
      try reflexivity; exact Habs.
  - cbn [jsonify fields] in *.
    destruct (jsonify x); cbn [lookup]; rewrite ?E; exact IH.
Qed.

(** X18. [PUT /:id] does not validate: any body that is there leads to one
    update of the row with that id. Of the five record fields the store
    receives exactly those the body defines, as JSON leaves out the
    undefined ones: a field the client omits is not overwritten, one it
    sets to [null] or to the empty string is. *)
Theorem update_sends_provided_fields (db : Query -> StoreReply) (id : string)
    (body : value) :
  nullish body = false ->
  exists patch,
    snd (update db id body) = [UpdateReturning "transcriptions" patch "id" (VStr id)]
    /\ (forall k, In k record_fields ->
          lookup k (fields (jsonify patch)) = sent_field body k)
    /\ (forall k, ~ In k record_fields -> lookup k (fields (jsonify patch)) = None).
Proof.
  intros Hnull. unfold update. rewrite Hnull. cbn [snd].
  eexists. split; [reflexivity|].
  assert (Hkeys : distinct_keys (fields (fields_of body))).
  { unfold distinct_keys. cbn. repeat constructor; cbn; intuition discriminate. }
  split.
  - intros k Hk. unfold fields_of in *. cbn [fields] in Hkeys.
    rewrite (lookup_jsonify k _ Hkeys). unfold sent_field.
    cbn in Hk. repeat (destruct Hk as [<- | Hk]; [reflexivity|]). contradiction.
  - intros k Hk. unfold fields_of. apply lookup_jsonify_absent.
    apply lookup_not_in. exact Hk.
Qed.

Lemma update_sends_provided_fields_witness :
  exists patch,
    snd (update Scenario.db_ok "7c9e6679-7425-40de-944b-e07fc1f90ae7" Scenario.rename)
    = [UpdateReturning "transcriptions" patch "id"
         (VStr "7c9e6679-7425-40de-944b-e07fc1f90ae7")]
    /\ (forall k, In k record_fields ->
          lookup k (fields (jsonify patch)) = sent_field Scenario.rename k)
    /\ (forall k, ~ In k record_fields -> lookup k (fields (jsonify patch)) = None).
Proof.
  apply (update_sends_provided_fields Scenario.db_ok
           "7c9e6679-7425-40de-944b-e07fc1f90ae7" Scenario.rename).
  reflexivity.
Defined.

(** X19. [PUT /:id] answers 200 with the row only for a reply with a row
    and no error, and 404 only for a reply with neither. As its query
    ends in [single()], an id that matches no row comes back as an error,
    so that the route answers 500 and not its 404. *)
Theorem update_outcomes (db : Query -> StoreReply) (id : string) (body : value) :
  nullish body = false ->
  (status (fst (update db id body)) = 404
   <-> truthy (error (db (UpdateReturning "transcriptions" (fields_of body) "id"
                            (VStr id)))) = false
       /\ truthy (World.data (db (UpdateReturning "transcriptions" (fields_of body) "id"
                                    (VStr id)))) = false)
  /\ (db (UpdateReturning "transcriptions" (fields_of body) "id" (VStr id))
      = RowStore.single [] ->
      fst (update db id body) = failed "Failed to update transcription")
  /\ (forall row,
        truthy row = true ->
        db (UpdateReturning "transcriptions" (fields_of body) "id" (VStr id))
        = RowStore.single [row] ->
        fst (update db id body) = {| status := 200; json := row |}).
Proof.
  intros Hnull. unfold update. rewrite Hnull. cbn [fst].
  split; [|split].
  - destruct (truthy (error (db _))); cbn;
      [split; [discriminate|intros [H _]; discriminate]|].
    destruct (truthy (World.data (db _))); cbn;
      [split; [discriminate|intros [_ H]; discriminate]|].
    split; [auto|reflexivity].
  - intros ->. reflexivity.
  - intros row Hrow ->. cbn. rewrite Hrow. reflexivity.
Qed.

Lemma update_outcomes_witness :
  fst (update Scenario.db_empty "00000000-0000-4000-8000-000000000000" Scenario.rename)
  = failed "Failed to update transcription".
Proof.
  destruct (update_outcomes Scenario.db_empty "00000000-0000-4000-8000-000000000000"
              Scenario.rename eq_refl) as (_ & Hmissing & _).
  apply Hmissing. reflexivity.
Defined.

(** X20. [DELETE /:id] sends one delete for the id and answers from the
    store's error alone: 200 with the fixed message when there is none,
    500 otherwise, and never 404. Whether a row was deleted does not
    enter: two stores that report the same error get the same answer. *)
Theorem delete_ignores_the_outcome (db db' : Query -> StoreReply) (id : string) :
  snd (delete db id) = [DeleteWhere "transcriptions" "id" (VStr id)]
  /\ (status (fst (delete db id)) = 200
      <-> truthy (error (db (DeleteWhere "transcriptions" "id" (VStr id)))) = false)
  /\ In (status (fst (delete db id))) [200; 500]
  /\ (truthy (error (db (DeleteWhere "transcriptions" "id" (VStr id))))
      = truthy (error (db' (DeleteWhere "transcriptions" "id" (VStr id)))) ->
      fst (delete db id) = fst (delete db' id)).
Proof.
  unfold delete. cbn [fst snd].
  split; [reflexivity|]. split; [|split].
  - destruct (truthy (error (db _))); cbn; split; congruence.
  - destruct (truthy (error (db _))); cbn; tauto.
  - intros ->. reflexivity.
Qed.

(** X21. A store error reaches the client of a record route as a 500 with
    the route's own fixed message and no other field: nothing of the
    store's error is passed on. Without an error the list route returns
    the store's rows as they are, asked in descending order of
    [created_at]. *)
Theorem record_routes_hide_store_errors (db : Query -> StoreReply) (id : string)
    (body : value) :
  snd (list_all db) = [SelectAllOrdered "transcriptions" "created_at" false]
  /\ (truthy (error (db (SelectAllOrdered "transcriptions" "created_at" false))) = false ->
      fst (list_all db)
      = {| status := 200;
           json := World.data (db (SelectAllOrdered "transcriptions" "created_at" false)) |})
  /\ ((forall q, truthy (error (db q)) = true) ->
      fst (list_all db) = failed "Failed to fetch transcriptions"
      /\ fst (delete db id) = failed "Failed to delete transcription"
      /\ (nullish body = false ->
          fst (update db id body) = failed "Failed to update transcription")
      /\ (status (fst (create db body)) <> 400 ->
          fst (create db body) = failed "Failed to create transcription")).
Proof.
  split; [reflexivity|]. split.
  - intros H. unfold list_all. cbn [fst]. rewrite H. reflexivity.
  - intros Herr. split; [|split; [|split]].
    + unfold list_all. cbn [fst]. rewrite Herr. reflexivity.
    + unfold delete. cbn [fst]. rewrite Herr. reflexivity.
    + intros Hnull. unfold update. rewrite Hnull. cbn [fst]. rewrite Herr. reflexivity.
    + unfold create. destruct (nullish body); [reflexivity|].
      destruct (negb (truthy (member body "filename"))
                || negb (truthy (member body "original_text")));
        cbn [fst status]; [congruence|].
      rewrite Herr. reflexivity.
Qed.

Lemma record_routes_hide_store_errors_witness :
  fst (list_all Scenario.db_down) = failed "Failed to fetch transcriptions"
  /\ fst (delete Scenario.db_down "7c9e6679-7425-40de-944b-e07fc1f90ae7")
     = failed "Failed to delete transcription"
  /\ (nullish Scenario.rename = false ->
      fst (update Scenario.db_down "7c9e6679-7425-40de-944b-e07fc1f90ae7" Scenario.rename)
      = failed "Failed to update transcription")
  /\ (status (fst (create Scenario.db_down Scenario.rename)) <> 400 ->
      fst (create Scenario.db_down Scenario.rename)
      = failed "Failed to create transcription").
Proof.
  apply (proj2 (proj2 (record_routes_hide_store_errors Scenario.db_down
                         "7c9e6679-7425-40de-944b-e07fc1f90ae7" Scenario.rename))).
  intros q. reflexivity.
Defined.

(** X22. [GET /:id] over a store that keeps the contract of [single()]:
    it answers 200 with the row exactly when one row has the id, and 500
    otherwise, for no row as for several. Its 404 is out of reach as long
    as rows are objects. *)
Theorem get_by_id_over_single env id rows w :
  snd (store env (SelectEqSingle "transcriptions" "id" (VStr id)) w)
  = RowStore.select_single rows "id" (VStr id) ->
  Forall (fun row => truthy row = true) rows ->
  (forall row,
      RowStore.select_eq "id" (VStr id) rows = [row] ->
      fst (get_by_id env id w) = {| status := 200; json := row |})
  /\ (List.length (RowStore.select_eq "id" (VStr id) rows) <> 1%nat ->
      fst (get_by_id env id w)
      = {| status := 500; json := error_body "Failed to fetch transcription" |})
  /\ status (fst (get_by_id env id w)) <> 404.
Proof.
  intros Hstore Hrows. rewrite get_by_id_reply, Hstore.
  unfold RowStore.select_single.
  assert (Hsel : Forall (fun row => truthy row = true)
                   (RowStore.select_eq "id" (VStr id) rows)).
  { unfold RowStore.select_eq. apply Forall_forall. intros row Hin.
    apply filter_In in Hin. destruct Hin as [Hin _].
    exact (proj1 (Forall_forall _ _) Hrows row Hin). }
  destruct (RowStore.select_eq "id" (VStr id) rows) as [|row [|row' rest]].
  - split; [intros row H; discriminate|]. split; [reflexivity|]. cbn. discriminate.
  - inversion Hsel as [|? ? Hrow _]; subst.
    split; [|split].
    + intros row0 H. injection H as <-. cbn. rewrite Hrow. reflexivity.
    + cbn. intros H. contradiction H. reflexivity.
    + cbn. rewrite Hrow. cbn. discriminate.
  - split; [intros row0 H; discriminate|]. split; [reflexivity|]. cbn. discriminate.
Qed.

Lemma get_by_id_over_single_witness :
  (forall row,
      RowStore.select_eq "id" (VStr "7c9e6679-7425-40de-944b-e07fc1f90ae7")
        [Sample.one_row] = [row] ->
      fst (get_by_id (Sample.env_holding [Sample.one_row])
             "7c9e6679-7425-40de-944b-e07fc1f90ae7" Sample.start)
      = {| status := 200; json := row |})
  /\ (List.length (RowStore.select_eq "id" (VStr "7c9e6679-7425-40de-944b-e07fc1f90ae7")
                     [Sample.one_row]) <> 1%nat ->
      fst (get_by_id (Sample.env_holding [Sample.one_row])
             "7c9e6679-7425-40de-944b-e07fc1f90ae7" Sample.start)
      = {| status := 500; json := error_body "Failed to fetch transcription" |})
  /\ status (fst (get_by_id (Sample.env_holding [Sample.one_row])
                    "7c9e6679-7425-40de-944b-e07fc1f90ae7" Sample.start)) <> 404.
Proof.
  apply (get_by_id_over_single (Sample.env_holding [Sample.one_row])
           "7c9e6679-7425-40de-944b-e07fc1f90ae7" [Sample.one_row] Sample.start).
  - reflexivity.
  - repeat constructor.
Defined.

(** *** Defaults and the advertised tables *)

(** X23. When the caller names neither a model nor a language, the model
    and the language [transcribeWithDeepgram] sends are among those
    [getAvailableModels] and [getSupportedLanguages] advertise for
    Deepgram, and the language code of an AssemblyAI job is among those
    advertised for AssemblyAI, whatever else the options hold. *)
Theorem defaults_are_advertised apiKey audioBuffer audioUrl opts :
  distinct_keys opts ->
  lookup "model" opts = None ->
  lookup "language" opts = None ->
  lookup "language_code" opts = None ->
  exists config sent submit body,
    deepgram_config apiKey audioBuffer (VObj opts) = Ok config
    /\ params config = VObj sent
    /\ In (member (VObj sent) "model") (advertised_models "deepgram")
    /\ In (member (VObj sent) "language") (advertised_languages "deepgram")
    /\ assemblyai_submit apiKey audioUrl (VObj opts) = Ok submit
    /\ payload submit = Json (VObj body)
    /\ In (member (VObj body) "language_code") (advertised_languages "assemblyai").
Proof.
  intros Hkeys Hmodel Hlang Hcode.
  unfold deepgram_config, assemblyai_submit, rbind. cbn [get].
  do 4 eexists.
  split; [reflexivity|]. split; [reflexivity|].
  split; [|split; [|split; [reflexivity|split; [reflexivity|]]]];
    cbn [member];
    rewrite (lookup_spread _ opts Hkeys), ?Hmodel, ?Hlang, ?Hcode;
    cbn [lookup String.eqb Ascii.eqb Bool.eqb];
    rewrite ?Hmodel, ?Hlang; cbn; tauto.
Qed.

Lemma defaults_are_advertised_witness :
  exists config sent submit body,
    deepgram_config (VStr "dg-key") [] (VObj [("diarize", VBool true)]) = Ok config
    /\ params config = VObj sent
    /\ In (member (VObj sent) "model") (advertised_models "deepgram")
    /\ In (member (VObj sent) "language") (advertised_languages "deepgram")
    /\ assemblyai_submit (VStr "dg-key") (VStr "https://cdn.assemblyai.com/upload/abc")
         (VObj [("diarize", VBool true)]) = Ok submit
    /\ payload submit = Json (VObj body)
    /\ In (member (VObj body) "language_code") (advertised_languages "assemblyai").
Proof.
  apply (defaults_are_advertised (VStr "dg-key") []
           (VStr "https://cdn.assemblyai.com/upload/abc") [("diarize", VBool true)]).
  - unfold distinct_keys. cbn. repeat constructor; cbn; intuition discriminate.
  - reflexivity.
  - reflexivity.
  - reflexivity.
Defined.

(** *** Bounds and inputs of the validation *)

Lemma upload_size_status env req f w :
  file req = Some f ->
  (size f <=? one_GiB) = true ->
  status (fst (transcribe_web env req w)) <> 413.
Proof.
  intros Hfile Hsize.
  destruct (first_failing env req) as [c|] eqn:Hfirst.
  - rewrite (rejected_request env req w c Hfirst).
    destruct c; cbn; try discriminate.
    exfalso. revert Hfirst. unfold first_failing, checks_in_order. cbn [find].
    unfold passes at 1 2. rewrite Hfile, Hsize. cbn [negb].
    destruct (negb (passes env req ExtensionAllowed)); [discriminate|].
    destruct (negb (passes env req CredentialsConfigured)); discriminate.
  - destruct (accepted_runs_transcribe env req w Hfirst) as (f' & _ & Hrun).
    rewrite Hrun.
    destruct (transcribe_outcome env f' w)
      as [(ms & e & H) | [(ms & H) | [(ms & H) | (ms & data & best & Hhttp & Hbest)]]];
      try (rewrite H; cbn; discriminate).
    rewrite (transcribe_success env f' w ms data best Hhttp Hbest). cbn. discriminate.
Qed.

(** X25. The handler's checks look at the upload's name and size only:
    of two requests whose files agree on both, either both are turned
    away with the same answer and no call, or both reach the provider,
    whatever content type the uploads report and whatever bytes they
    hold. *)
Theorem validation_reads_name_and_size env req req' f f' w :
  file req = Some f ->
  file req' = Some f' ->
  originalname f = originalname f' ->
  size f = size f' ->
  (exists c,
      transcribe_web env req w = (rejection c, w)
      /\ transcribe_web env req' w = (rejection c, w))
  \/ (exists rest rest',
         log (snd (transcribe_web env req w))
         = (log w ++ Http (provider_call env f) :: rest)%list
         /\ log (snd (transcribe_web env req' w))
            = (log w ++ Http (provider_call env f') :: rest')%list).
Proof.
  intros Hfile Hfile' Hname Hsize.
  unfold transcribe_web, try_catch. rewrite Hfile, Hfile', <- Hname, <- Hsize.
  destruct (size f >? 1024 * 1024 * 1024);
    [left; exists SizeWithinLimit; split; reflexivity|].
  destruct (negb (includes allowedFormats (extension (originalname f))));
    [left; exists ExtensionAllowed; split; reflexivity|].
  destruct (negb (truthy (DEEPGRAM_API_KEY env)));
    [left; exists CredentialsConfigured; split; reflexivity|].
  right.
  destruct (transcribe_log env f (DEEPGRAM_API_KEY env) w) as (rest & Hlog & _).
  destruct (transcribe_log env f' (DEEPGRAM_API_KEY env) w) as (rest' & Hlog' & _).
  exists rest, rest'. split; assumption.
Qed.

Lemma validation_reads_name_and_size_witness :
  (exists c,
      transcribe_web Sample.env_ok Sample.sample_wav Sample.start
      = (rejection c, Sample.start)
      /\ transcribe_web Sample.env_ok
           {| file := Some {| originalname := "sample.wav"; size := 10240;
                              mimetype := VStr "text/plain"; buffer := [] |};
              body := VNull; query := VNull |} Sample.start
         = (rejection c, Sample.start))
  \/ (exists rest rest',
         log (snd (transcribe_web Sample.env_ok Sample.sample_wav Sample.start))
         = (log Sample.start
            ++ Http (provider_call Sample.env_ok (Sample.audio "sample.wav")) :: rest)%list
         /\ log (snd (transcribe_web Sample.env_ok
                        {| file := Some {| originalname := "sample.wav"; size := 10240;
                                           mimetype := VStr "text/plain"; buffer := [] |};
                           body := VNull; query := VNull |} Sample.start))
            = (log Sample.start
               ++ Http (provider_call Sample.env_ok
                          {| originalname := "sample.wav"; size := 10240;
                             mimetype := VStr "text/plain"; buffer := [] |}) :: rest')%list).
Proof.
  apply (validation_reads_name_and_size Sample.env_ok Sample.sample_wav _
           (Sample.audio "sample.wav")
           {| originalname := "sample.wav"; size := 10240;
              mimetype := VStr "text/plain"; buffer := [] |}).
  - reflexivity.
  - reflexivity.
  - reflexivity.
  - reflexivity.
Defined.

(** X26. When the provider call is rejected, the body of the 500 passes
    the rejection on: [message] is the rejection's message and [details]
    is the upstream answer's body as it came, absent when the rejection
    carries no response. *)
Theorem upstream_details_are_forwarded env req w f ms error :
  first_failing env req = None ->
  file req = Some f ->
  http env (provider_call env f) w = (ms, Throw error) ->
  member (json (fst (transcribe_web env req w))) "message" = message error
  /\ member (json (fst (transcribe_web env req w))) "details"
     = opt_member (response error) "data"
  /\ (response error = VUndefined ->
      present (json (fst (transcribe_web env req w))) "details" = false)
  /\ snd (transcribe_web env req w) = answered env f w ms.
Proof.
  intros Hacc Hfile Hhttp.
  rewrite (provider_failure env req w f ms error Hacc Hfile Hhttp).
  split; [reflexivity|]. split; [reflexivity|]. split; [|reflexivity].
  intros Hresp. unfold present, Speech.on_error. cbn [fst json]. rewrite Hresp.
  cbn. destruct (jsonify (errorMessage error)); destruct (jsonify (message error));
    reflexivity.
Qed.

Lemma upstream_details_are_forwarded_witness :
  member (json (fst (transcribe_web Sample.env_unauthorized Sample.sample_wav
                       Sample.start))) "message" = message Sample.unauthorized
  /\ member (json (fst (transcribe_web Sample.env_unauthorized Sample.sample_wav
                          Sample.start))) "details"
     = opt_member (response Sample.unauthorized) "data"
  /\ (response Sample.unauthorized = VUndefined ->
      present (json (fst (transcribe_web Sample.env_unauthorized Sample.sample_wav
                            Sample.start))) "details" = false)
  /\ snd (transcribe_web Sample.env_unauthorized Sample.sample_wav Sample.start)
     = answered Sample.env_unauthorized (Sample.audio "sample.wav") Sample.start 120.
Proof.
  apply (upstream_details_are_forwarded Sample.env_unauthorized Sample.sample_wav
           Sample.start (Sample.audio "sample.wav") 120 Sample.unauthorized).
  - reflexivity.
  - reflexivity.
  - reflexivity.
Defined.

(** *** Witnesses of the properties above *)

Lemma no_results_is_handled_witness :
  transcribe_web (Scenario.env_answering (700, Ok (VObj []))) Sample.sample_wav
    Sample.start
  = ({| status := 500; json := error_body "No transcription results received" |},
     answered (Scenario.env_answering (700, Ok (VObj []))) (Sample.audio "sample.wav")
       Sample.start 700)
  /\ formatDeepgramResponse (VObj [])
     = Throw (Error "Invalid Deepgram response format").
Proof.
  apply (no_results_is_handled (Scenario.env_answering (700, Ok (VObj [])))
           Sample.sample_wav Sample.start (Sample.audio "sample.wav") 700 (VObj [])).
  - reflexivity.
  - reflexivity.
  - reflexivity.
  - reflexivity.
Defined.

Lemma unreadable_answer_is_caught_witness :
  exists what,
    transcribe_web (Scenario.env_answering (700, Ok Scenario.null_alternative))
      Sample.sample_wav Sample.start
    = ({| status := 500;
          json := VObj [("error", VStr "Transcription failed");
                        ("message", VStr ("Cannot read properties of " ++ what));
                        ("details", VUndefined)] |},
       answered (Scenario.env_answering (700, Ok Scenario.null_alternative))
         (Sample.audio "sample.wav") Sample.start 700).
Proof.
  apply (unreadable_answer_is_caught
           (Scenario.env_answering (700, Ok Scenario.null_alternative))
           Sample.sample_wav Sample.start (Sample.audio "sample.wav") 700
           Scenario.null_alternative).
  - reflexivity.
  - reflexivity.
  - reflexivity.
  - right. reflexivity.
Defined.

Lemma inserted_row_fields_witness :
  exists row,
    log (snd (transcribe_web Sample.env_ok Sample.sample_wav Sample.start))
    = (log Sample.start
       ++ [Http (provider_call Sample.env_ok (Sample.audio "sample.wav"));
           Store (InsertSelectSingle "transcriptions" (VArr [row]))])%list
    /\ member row "filename" = VStr (originalname (Sample.audio "sample.wav"))
    /\ member row "original_text"
       = member (member (json (fst (transcribe_web Sample.env_ok Sample.sample_wav
                                      Sample.start))) "transcription") "text"
    /\ member row "file_size" = num (size (Sample.audio "sample.wav"))
    /\ member row "file_type"
       = (if truthy (mimetype (Sample.audio "sample.wav"))
          then mimetype (Sample.audio "sample.wav")
          else getContentType (originalname (Sample.audio "sample.wav"))).
Proof.
  apply (inserted_row_fields Sample.env_ok Sample.sample_wav Sample.start
           (Sample.audio "sample.wav") 2500 Sample.hello_world Sample.hello_alternative).
  - reflexivity.
  - reflexivity.
  - reflexivity.
  - reflexivity.
Defined.

(* ================================================================== *)
(** ** The checks of the route                                         *)
(* ================================================================== *)

Lemma after_last_dot_without_dot (s : string) :
  has_char "." s = false -> after_last_dot s = s.
Proof. destruct s as [|c s]; [reflexivity|]. cbn [after_last_dot]. now intros ->. Qed.

Lemma split_from_nonempty (sep : ascii) (s cur : string) :
  split_from sep cur s <> [].
Proof.
  revert cur. induction s as [|c s IH]; intros cur; cbn [split_from]; [discriminate|].
  destruct (Ascii.eqb c sep); [discriminate|apply IH].
Qed.

Lemma pop_cons (x : string) (l : list string) : l <> [] -> pop (x :: l) = pop l.
Proof.
  intros Hl. unfold pop. cbn [rev].
  destruct (rev l) as [|y t] eqn:E; [|reflexivity].
  apply (f_equal (@rev string)) in E. rewrite rev_involutive in E. contradiction.
Qed.

(** [split(".").pop()] is the part after the last dot. *)
Lemma pop_split_from (s cur : string) :
  pop (split_from "." cur s)
  = VStr (if has_char "." s then after_last_dot s else (cur ++ s)%string).
Proof.
  revert cur. induction s as [|c s IH]; intros cur.
  - cbn. now rewrite append_empty.
  - cbn [split_from has_char after_last_dot].
    destruct (Ascii.eqb c ".") eqn:Ec; cbn [orb].
    + rewrite pop_cons by apply split_from_nonempty.
      rewrite IH. cbn [append].
      destruct (has_char "." s) eqn:Hs; [reflexivity|].
      now rewrite (after_last_dot_without_dot s Hs).
    + rewrite IH, append_assoc. cbn [append].
      destruct (has_char "." s); reflexivity.
Qed.

Lemma after_last_dot_lower (s : string) :
  after_last_dot (toLowerCase s) = toLowerCase (after_last_dot s).
Proof.
  induction s as [|c s IH]; [reflexivity|].
  change (toLowerCase (String c s)) with (String (lower_char c) (toLowerCase s)).
  cbn [after_last_dot has_char].
  rewrite lower_char_dot, toLowerCase_has_dot, IH.
  destruct (Ascii.eqb c "." || has_char "." s); reflexivity.
Qed.

(** The extension the handler computes is the suffix of the name in lower
    case. *)
Lemma extension_is_suffix (name : string) :
  extension name = VStr (toLowerCase (after_last_dot name)).
Proof.
  unfold extension, split. rewrite pop_split_from, <- after_last_dot_lower.
  destruct (has_char "." (toLowerCase name)) eqn:H; [reflexivity|].
  now rewrite (after_last_dot_without_dot _ H).
Qed.

Lemma holds_passes env req c : holds env req c = passes env req c.
Proof.
  destruct c; try reflexivity.
  unfold holds, passes. destruct (file req) as [f|]; [|reflexivity].
  rewrite extension_is_suffix. reflexivity.
Qed.

Lemma first_to_fail_first_failing env req :
  first_to_fail env req = first_failing env req.
Proof.
  unfold first_to_fail, first_failing, checks_in_order. cbn [find].
  now rewrite !holds_passes.
Qed.

Lemma single_from_within_limit strict name ps : forall got f,
  Upload.single_from strict name got ps = inl (Some f) ->
  got = Some f \/ size f <= Upload.fileSize.
Proof.
  induction ps as [|p ps IH]; intros got f; cbn [Upload.single_from].
  - intros H. injection H as ->. now left.
  - destruct (negb (Upload.fieldname p =? name)%string); [discriminate|].
    destruct got as [g|]; [discriminate|].
    destruct (Upload.over_limit strict (size (Upload.content p))) eqn:Hover;
      [discriminate|].
    intros H. right. destruct (IH _ _ H) as [Hgot | Hle]; [|exact Hle].
    injection Hgot as <-. unfold Upload.over_limit in Hover.
    destruct strict; [apply Z.leb_gt in Hover|apply Z.ltb_ge in Hover]; lia.
Qed.

Lemma delivered_within_limit strict form req f :
  Upload.single strict "audio" form = Upload.Delivered req ->
  file req = Some f ->
  size f <= Upload.fileSize.
Proof.
  unfold Upload.single.
  destruct (Upload.single_from strict "audio" None (Upload.parts form)) as [got|code] eqn:E;
    [|discriminate].
  intros H. injection H as <-. cbn [file]. intros ->.
  destruct (single_from_within_limit _ _ _ _ _ E) as [H|H]; [discriminate|exact H].
Qed.

Lemma file_size_limit : Upload.fileSize = one_GiB.
Proof. reflexivity. Qed.

Lemma size_check_fails env req :
  first_failing env req = Some SizeWithinLimit ->
  exists f, file req = Some f /\ one_GiB < size f.
Proof.
  unfold first_failing, checks_in_order. cbn [find].
  unfold passes at 1 2.
  destruct (file req) as [f|]; cbn [negb]; [|discriminate].
  destruct (size f <=? one_GiB) eqn:Hsize; cbn [negb].
  - destruct (negb (passes env req ExtensionAllowed)); [discriminate|].
    destruct (negb (passes env req CredentialsConfigured)); discriminate.
  - intros _. exists f. split; [reflexivity|]. now apply Z.leb_gt.
Qed.

Lemma handler_without_file env req w :
  file req = None ->
  transcribe_web env req w = (rejection FilePresent, w).
Proof. intros H. unfold transcribe_web, try_catch. now rewrite H. Qed.

(** C4. The route as a whole. The upload middleware comes first: what it
    refuses, a file of more than 1 GiB among it, is passed on as its
    error, the handler does not run and no call is made. On what it
    delivers, the handler checks in this order that a file is present,
    that its size is within the limit, that the suffix of its name is an
    allowed extension, case apart, and that the provider key is
    configured; the first check that fails decides the response and
    leaves the world as it was, and when none fails the provider call
    comes next. But the size check never fails, as the middleware has
    delivered no file over the limit: the route never answers 413. *)
Theorem C4_validation_order (strict : bool) (env : Env) (form : Upload.Form)
    (w : World) :
  match Upload.single strict "audio" form with
  | Upload.Refused code => Upload.route strict env form w = (Upload.Passed code, w)
  | Upload.Delivered req =>
      Upload.route strict env form w
      = (Upload.Responded (fst (transcribe_web env req w)),
         snd (transcribe_web env req w))
      /\ status (fst (transcribe_web env req w)) <> 413
      /\ match first_to_fail env req with
         | Some c =>
             c <> SizeWithinLimit
             /\ transcribe_web env req w = (rejection c, w)
         | None =>
             exists f rest,
               file req = Some f
               /\ log (snd (transcribe_web env req w))
                  = (log w ++ Http (provider_call env f) :: rest)%list
               /\ filter is_http rest = []
         end
  end
  /\ forall p rest,
       Upload.parts form = p :: rest ->
       Upload.fieldname p = "audio" ->
       Upload.fileSize < size (Upload.content p) ->
       Upload.route strict env form w = (Upload.Passed "LIMIT_FILE_SIZE", w).
Proof.
  split.
  - unfold Upload.route.
    destruct (Upload.single strict "audio" form) as [req|code] eqn:Hup; [|reflexivity].
    split; [reflexivity|].
    assert (Hsize : forall f, file req = Some f -> (size f <=? one_GiB) = true).
    { intros f Hf. apply Z.leb_le. rewrite <- file_size_limit.
      exact (delivered_within_limit strict form req f Hup Hf). }
    split.
    + destruct (file req) as [f|] eqn:Hfile.
      * exact (upload_size_status env req f w Hfile (Hsize f eq_refl)).
      * rewrite (handler_without_file env req w Hfile). cbn. discriminate.
    + rewrite first_to_fail_first_failing.
      destruct (first_failing env req) as [c|] eqn:Hfirst.
      * split; [|exact (rejected_request env req w c Hfirst)].
        intros ->. destruct (size_check_fails env req Hfirst) as (f & Hf & Hbig).
        specialize (Hsize f Hf). apply Z.leb_le in Hsize. lia.
      * destruct (accepted_runs_transcribe env req w Hfirst) as (f & Hfile & Hrun).
        destruct (transcribe_log env f (DEEPGRAM_API_KEY env) w) as (rest & Hlog & Hrest).
        exists f, rest. rewrite Hrun. repeat split; assumption.
  - intros p rest Hparts Hname Hbig.
    unfold Upload.route, Upload.single. rewrite Hparts. cbn [Upload.single_from].
    rewrite Hname. cbn [String.eqb Ascii.eqb Bool.eqb negb].
    replace (Upload.over_limit strict (size (Upload.content p))) with true;
      [reflexivity|].
    symmetry. unfold Upload.over_limit.
    destruct strict; [apply Z.leb_le|apply Z.ltb_lt]; lia.
Qed.

(** The failing input of C4: one byte over the limit never reaches the
    handler and its 413, whichever way the middleware takes a file of
    exactly the limit. *)
Lemma C4_validation_order_witness :
  Upload.route false Sample.env_ok (Scenario.form_with Scenario.oversize) Sample.start
  = (Upload.Passed "LIMIT_FILE_SIZE", Sample.start)
  /\ Upload.route true Sample.env_ok (Scenario.form_with Scenario.oversize) Sample.start
     = (Upload.Passed "LIMIT_FILE_SIZE", Sample.start).
Proof.
  split.
  - apply (proj2 (C4_validation_order false Sample.env_ok
                    (Scenario.form_with Scenario.oversize) Sample.start)
             {| Upload.fieldname := "audio"; Upload.content := Scenario.oversize |} []).
    + reflexivity.
    + reflexivity.
    + reflexivity.
  - apply (proj2 (C4_validation_order true Sample.env_ok
                    (Scenario.form_with Scenario.oversize) Sample.start)
             {| Upload.fieldname := "audio"; Upload.content := Scenario.oversize |} []).
    + reflexivity.
    + reflexivity.
    + reflexivity.
Defined.

Lemma transcribe_status env f w :
  status (fst (try_catch (transcribe env f (DEEPGRAM_API_KEY env)) Speech.on_error w))
  <> 400.
Proof.
  destruct (transcribe_outcome env f w)
    as [(ms & e & H) | [(ms & H) | [(ms & H) | (ms & data & best & Hhttp & Hbest)]]];
    try (rewrite H; cbn; discriminate).
  rewrite (transcribe_success env f w ms data best Hhttp Hbest). cbn. discriminate.
Qed.

(** C9. When the name of the uploaded file has no dot, the extension the
    handler checks is the whole name in lower case. The handler lets the
    upload past its format check exactly when that is one of the six
    allowed words: a file named [wav] is accepted, and with a key
    configured it is sent to the provider; any other dot-free name gets
    the 400 of an unsupported format, which is the only 400 such an
    upload can get. *)
Theorem C9_dot_free_name env req f w :
  file req = Some f ->
  size f <= one_GiB ->
  has_char "." (originalname f) = false ->
  extension (originalname f) = VStr (toLowerCase (originalname f))
  /\ (passes env req ExtensionAllowed = true
      <-> In (toLowerCase (originalname f)) allowed_extensions)
  /\ (status (fst (transcribe_web env req w)) <> 400
      <-> In (toLowerCase (originalname f)) allowed_extensions)
  /\ (~ In (toLowerCase (originalname f)) allowed_extensions ->
      transcribe_web env req w = (rejection ExtensionAllowed, w))
  /\ (In (toLowerCase (originalname f)) allowed_extensions ->
      truthy (DEEPGRAM_API_KEY env) = true ->
      exists rest,
        log (snd (transcribe_web env req w))
        = (log w ++ Http (provider_call env f) :: rest)%list).
Proof.
  intros Hfile Hsize Hdot.
  pose proof (extension_without_dot _ Hdot) as Hext.
  assert (Hrej : ~ In (toLowerCase (originalname f)) allowed_extensions ->
                 transcribe_web env req w = (rejection ExtensionAllowed, w)).
  { intros Hnot. apply (rejects_extension env req f w Hfile Hsize).
    rewrite Hext.
    destruct (includes allowedFormats (VStr (toLowerCase (originalname f)))) eqn:E;
      [|reflexivity].
    apply includes_allowedFormats in E. contradiction. }
  assert (Hacc : In (toLowerCase (originalname f)) allowed_extensions ->
                 transcribe_web env req w
                 = if truthy (DEEPGRAM_API_KEY env)
                   then try_catch (transcribe env f (DEEPGRAM_API_KEY env))
                          Speech.on_error w
                   else (rejection CredentialsConfigured, w)).
  { intros Hin. apply includes_allowedFormats in Hin. rewrite <- Hext in Hin.
    unfold transcribe_web, try_catch. rewrite Hfile, size_check.
    apply Z.leb_le in Hsize. rewrite Hsize, Hin. cbn [negb].
    destruct (truthy (DEEPGRAM_API_KEY env)); reflexivity. }
  split; [exact Hext|]. split; [|split; [|split; [exact Hrej|]]].
  - rewrite (passes_extension_includes env req f Hfile), Hext.
    apply includes_allowedFormats.
  - split.
    + intros Hstatus.
      destruct (includes allowedFormats (VStr (toLowerCase (originalname f)))) eqn:E;
        [now apply includes_allowedFormats|].
      exfalso. apply Hstatus. rewrite Hrej; [reflexivity|].
      intros Hin. apply includes_allowedFormats in Hin. congruence.
    + intros Hin. rewrite (Hacc Hin).
      destruct (truthy (DEEPGRAM_API_KEY env)); [apply transcribe_status|].
      cbn. discriminate.
  - intros Hin Hkey. rewrite (Hacc Hin), Hkey.
    destruct (transcribe_log env f (DEEPGRAM_API_KEY env) w) as (rest & Hlog & _).
    exists rest. exact Hlog.
Qed.

(** A file named [wav] is accepted and sent to the provider. *)
Lemma C9_dot_free_name_witness :
  extension "wav" = VStr "wav"
  /\ status (fst (transcribe_web Sample.env_ok (Sample.upload "wav") Sample.start)) <> 400
  /\ exists rest,
       log (snd (transcribe_web Sample.env_ok (Sample.upload "wav") Sample.start))
       = (log Sample.start
          ++ Http (provider_call Sample.env_ok (Sample.audio "wav")) :: rest)%list.
Proof.
  destruct (C9_dot_free_name Sample.env_ok (Sample.upload "wav") (Sample.audio "wav")
              Sample.start eq_refl)
    as (Hext & _ & Hstatus & _ & Hcall).
  - change (10240 <= 1073741824). lia.
  - reflexivity.
  - split; [exact Hext|]. split.
    + apply Hstatus. cbn. tauto.
    + apply Hcall; [cbn; tauto|reflexivity].
Defined.

(** The case of a dot-free name does not matter. *)
Example dot_free_name_in_capitals :
  status (fst (transcribe_web Sample.env_ok (Sample.upload "WAV") Sample.start)) = 200
  /\ status (fst (transcribe_web Sample.env_ok (Sample.upload "Mp3") Sample.start)) = 200
  /\ transcribe_web Sample.env_ok (Sample.upload "WAVE") Sample.start
     = (rejection ExtensionAllowed, Sample.start).
Proof. repeat split. Qed.

(** Options left out are the empty options. *)
Lemma omitted_options env audioBuffer fuel w :
  transcribeWithDeepgram env audioBuffer VUndefined w
  = transcribeWithDeepgram env audioBuffer (VObj []) w
  /\ transcribeWithAssemblyAI env fuel audioBuffer VUndefined w
     = transcribeWithAssemblyAI env fuel audioBuffer (VObj []) w.
Proof. split; reflexivity. Qed.

Example large_numbers_print_as_doubles :
  to_string (num (2 ^ 53 + 1)) = "9007199254740992"
  /\ to_string (num (2 ^ 64)) = "18446744073709552000"
  /\ to_string (num (10 ^ 21)) = "1e+21"
  /\ to_string (num (2 ^ 70)) = "1.1805916207174113e+21"
  /\ to_string (num (- 42)) = "-42".
Proof. repeat split; vm_compute; reflexivity. Qed.
